(** * aiojolokia: the bulk request/response engine of the Jolokia client

    A shallow embedding of [aiojolokia/models.py], [aiojolokia/client.py]
    and the part of [aiojolokia/__main__.py] that follows the parsing of
    the command line, with the properties of the batch protocol engine:
    serialization of requests, normalization of the reply shape, per-entry
    parsing, the synthesis of exceptions out of failed entries and their
    aggregation.

    Python values are modelled as follows.
    - A document decoded by [json.loads] is a [json] value; a [float] is
      kept as the [spec_float] it denotes.
    - [str] is [string], the UTF-8 text of the [str]; a lone surrogate,
      which [json.loads] lets through, is held as the three bytes the
      [surrogatepass] handler gives it.  The separators the code looks
      for are ASCII, so that cutting the bytes at them agrees with cutting
      the code points.
    - [None] in an [X | None] field is [None] of [option]; in an [Any]
      field it is [JNull].  The values a caller can put into an [Any]
      field are taken among the decoded JSON values.
    - A raised exception is the [Raised] branch of [result].
    - What depends on the interpreter and on the host (the zone and the
      range of the clock, the tables of Unicode, the printing of a
      [float]) is a parameter of the model, a [Runtime]. *)

From Stdlib Require Import ZArith List String Ascii Bool Lia.
From Stdlib Require Import DecimalString DecimalPos DecimalZ SpecFloat.
Import ListNotations.

Set Warnings "-register-all".

Open Scope string_scope.
Open Scope Z_scope.

(** ** Decoded JSON documents *)

Inductive json : Type :=
| JNull
| JBool (b : bool)
| JInt (n : Z)
| JFloat (f : spec_float)
| JString (s : string)
| JArray (items : list json)
| JObject (members : list (string * json)).

(** A [dict] with [str] keys, as its items in insertion order; a dict
    holds a key once, and [dict_get] reads the first item of a key. *)
Definition dict : Type := list (string * json).

Fixpoint dict_get (key : string) (d : dict) : option json :=
  match d with
  | [] => None
  | (k, v) :: d' => if String.eqb k key then Some v else dict_get key d'
  end.

Definition dict_keys (d : dict) : list string := map fst d.

(** ** The [str] methods the client uses *)

Module Str.

(** [s.split(sep)] for a non-empty [sep], scanning from the left for
    occurrences that do not overlap.  [split_fields sep skip s] returns
    the field under construction and the fields after it; [skip] counts
    the characters of a matched separator still to be passed over.
    (Python raises [ValueError] on an empty separator; both call sites
    pass a literal.) *)
Fixpoint split_fields (sep : string) (skip : nat) (s : string)
  : string * list string :=
  match s with
  | EmptyString => (EmptyString, [])
  | String c s' =>
      match skip with
      | S k => split_fields sep k s'
      | O =>
          if String.prefix sep s
          then let (f, fs) := split_fields sep (String.length sep - 1) s'
               in (EmptyString, f :: fs)
          else let (f, fs) := split_fields sep 0 s'
               in (String c f, fs)
      end
  end.

Definition split (sep s : string) : list string :=
  let (f, fs) := split_fields sep 0 s in f :: fs.

(** [sep.join(fields)] *)
Definition join (sep : string) (fields : list string) : string :=
  String.concat sep fields.

(** Truthiness of a [str]: the empty string is falsy. *)
Definition truthy (s : string) : bool :=
  match s with EmptyString => false | String _ _ => true end.

(** A byte that continues the UTF-8 sequence of a code point. *)
Definition is_continuation (c : ascii) : bool :=
  let n := nat_of_ascii c in ((128 <=? n) && (n <? 192))%nat.

Definition continued (s : string) : bool :=
  match s with
  | String c _ => is_continuation c
  | EmptyString => false
  end.

(** The characters of a string, one string each (iteration over a
    [str]): a byte with the bytes that continue it. *)
Fixpoint chars (s : string) : list string :=
  match s with
  | EmptyString => []
  | String c s' =>
      if continued s'
      then match chars s' with
           | ch :: rest => String c ch :: rest
           | [] => [String c EmptyString]
           end
      else String c EmptyString :: chars s'
  end.

(** All the characters are ASCII. *)
Fixpoint is_ascii (s : string) : bool :=
  match s with
  | EmptyString => true
  | String c s' => (nat_of_ascii c <? 128)%nat && is_ascii s'
  end.

(** The string holds a NUL character. *)
Fixpoint has_nul (s : string) : bool :=
  match s with
  | EmptyString => false
  | String c s' => (nat_of_ascii c =? 0)%nat || has_nul s'
  end.

(** The string holds a lone surrogate: the byte 237 before a byte from
    160 on, which no other code point begins with. *)
Fixpoint has_surrogate (s : string) : bool :=
  match s with
  | EmptyString => false
  | String c s' =>
      (nat_of_ascii c =? 237)%nat &&
      match s' with
      | String d _ => (160 <=? nat_of_ascii d)%nat && (nat_of_ascii d <? 192)%nat
      | EmptyString => false
      end
      || has_surrogate s'
  end.

(** What the name of a class cannot be: the name is turned into a C
    string, which takes no lone surrogate and ends at a NUL. *)
Definition unnameable (s : string) : bool := has_surrogate s || has_nul s.

(** [c in s] for a character [c]. *)
Fixpoint occurs (c : ascii) (s : string) : bool :=
  match s with
  | EmptyString => false
  | String x s' => Ascii.eqb x c || occurs c s'
  end.

(** The white space [int] passes over around an ASCII literal. *)
Definition is_space (c : ascii) : bool :=
  let n := nat_of_ascii c in
  ((9 <=? n) && (n <=? 13) || (n =? 32))%nat.

Fixpoint lstrip (s : string) : string :=
  match s with
  | String c s' => if is_space c then lstrip s' else s
  | EmptyString => EmptyString
  end.

Fixpoint rstrip (s : string) : string :=
  match s with
  | EmptyString => EmptyString
  | String c s' =>
      let r := rstrip s' in
      if is_space c && negb (truthy r) then EmptyString else String c r
  end.

Definition strip (s : string) : string := rstrip (lstrip s).

End Str.

(** ** What the interpreter and the host supply *)

(** A naive [datetime]: the fields of the calendar in the zone of the
    host. *)
Record datetime : Type := {
  year : Z;
  month : Z;
  day : Z;
  hour : Z;
  minute : Z;
  second : Z;
  microsecond : Z;
  fold : Z
}.

(** What [datetime.fromtimestamp] does with an [int]: the date, or one of
    the three exceptions it raises. *)
Inductive conversion : Type :=
| Converted (d : datetime)
| OutOfRange
| Overflow
| OsFailure.

(** - [fromtimestamp] is [datetime.fromtimestamp] on an [int];
      [OutOfRange] is its [ValueError] (a year the calendar does not
      have), [Overflow] its [OverflowError] (beyond the [time_t] of the
      platform) and [OsFailure] its [OSError].
    - [int_of_text] is [int(s)] for a [str] that holds characters outside
      ASCII, which goes by the decimal digits and the white space of the
      Unicode tables of the interpreter; [None] is its [ValueError].
    - [repr_float] is [str(x)] for a [float]. *)
Record Runtime : Type := {
  fromtimestamp : Z -> conversion;
  int_of_text : string -> option Z;
  repr_float : spec_float -> string
}.

(** ** [int(...)], [str(...)] and [dict(...)] on the values a reply can hold *)

Module Builtins.

Definition digit_of (c : ascii) : option Z :=
  let n := nat_of_ascii c in
  if ((48 <=? n) && (n <=? 57))%nat then Some (Z.of_nat n - 48) else None.

(** Decimal digits, single underscores allowed between two digits.
    [seen] counts the digits read, [after_digit] tells whether the
    previous character was one. *)
Fixpoint digits (acc : Z) (seen : nat) (after_digit : bool) (s : string)
  : option (Z * nat) :=
  match s with
  | EmptyString => if after_digit then Some (acc, seen) else None
  | String c s' =>
      match digit_of c with
      | Some d => digits (10 * acc + d) (S seen) true s'
      | None =>
          if Ascii.eqb c "_" && after_digit
          then digits acc seen false s'
          else None
      end
  end.

(** The limit on the length of a decimal literal that [int] converts
    ([sys.int_info.default_max_str_digits]). *)
Definition max_str_digits : nat := 4300.

Definition unsigned_of_str (s : string) : option Z :=
  match digits 0 0 false s with
  | Some (n, seen) => if (seen <=? max_str_digits)%nat then Some n else None
  | None => None
  end.

(** [int(s)] in base ten for an ASCII [str]; [None] stands for
    [ValueError]. *)
Definition int_of_ascii (s : string) : option Z :=
  match Str.strip s with
  | String "+" r => unsigned_of_str r
  | String "-" r => option_map Z.opp (unsigned_of_str r)
  | t => unsigned_of_str t
  end.

(** [int(s)] for a [str]. *)
Definition int_of_str (rt : Runtime) (s : string) : option Z :=
  if Str.is_ascii s then int_of_ascii s else int_of_text rt s.

(** [int(x)] for a [float]: the integer towards zero; [None] stands for
    the [ValueError] of a NaN and the [OverflowError] of an infinity. *)
Definition int_of_float (f : spec_float) : option Z :=
  match f with
  | S754_zero _ => Some 0
  | S754_finite s m e =>
      let magnitude :=
        if 0 <=? e then Z.pos m * 2 ^ e else Z.pos m / 2 ^ (- e) in
      Some (if s then - magnitude else magnitude)
  | S754_infinity _ | S754_nan => None
  end.

(** [str(n)] for an [int]. *)
Definition str_of_int (n : Z) : string := NilZero.string_of_int (Z.to_int n).

(** What [json.dumps] can write: every [int] of the value has to be
    within the limit of digits, a [ValueError] otherwise. *)
Fixpoint encodable (v : json) : bool :=
  match v with
  | JInt n => (String.length (str_of_int (Z.abs n)) <=? max_str_digits)%nat
  | JArray items => forallb encodable items
  | JObject members =>
      (fix all (items : list (string * json)) : bool :=
         match items with
         | [] => true
         | (_, x) :: r => encodable x && all r
         end) members
  | JNull | JBool _ | JFloat _ | JString _ => true
  end.

(** [str(b)] for a [bool]. *)
Definition str_of_bool (b : bool) : string := if b then "True" else "False".

(** [x == n] for a [float] and an [int], and [x == y] for two [float]s:
    the numbers are compared exactly, a NaN is equal to nothing. *)
Definition float_eq_int (f : spec_float) (n : Z) : bool :=
  match f with
  | S754_zero _ => n =? 0
  | S754_finite s m e =>
      let k := if s then - n else n in
      if 0 <=? e then Z.pos m * 2 ^ e =? k else Z.pos m =? k * 2 ^ (- e)
  | S754_infinity _ | S754_nan => false
  end.

Definition float_eq (f g : spec_float) : bool :=
  match f, g with
  | S754_zero _, S754_zero _ => true
  | S754_infinity s, S754_infinity t => Bool.eqb s t
  | S754_finite s m e, S754_finite t n d =>
      Bool.eqb s t &&
      (if e <=? d
       then Z.pos m =? Z.pos n * 2 ^ (d - e)
       else Z.pos m * 2 ^ (e - d) =? Z.pos n)
  | _, _ => false
  end.

Definition int_of_bool (b : bool) : Z := if b then 1 else 0.

(** Two keys of a [dict] are one key: equal hashable values.  (Two NaN
    decoded from a document are two objects, and two keys.) *)
Definition key_eq (a b : json) : bool :=
  match a, b with
  | JNull, JNull => true
  | JBool x, JBool y => Bool.eqb x y
  | JBool x, JInt n | JInt n, JBool x => int_of_bool x =? n
  | JBool x, JFloat f | JFloat f, JBool x => float_eq_int f (int_of_bool x)
  | JInt n, JInt m => n =? m
  | JInt n, JFloat f | JFloat f, JInt n => float_eq_int f n
  | JFloat f, JFloat g => float_eq f g
  | JString s, JString t => String.eqb s t
  | _, _ => false
  end.

Definition hashable (v : json) : bool :=
  match v with
  | JArray _ | JObject _ => false
  | _ => true
  end.

(** One element of the sequence handed to [dict]: an iterable of exactly
    two elements, the first of which can be hashed. *)
Definition pair_of (item : json) : option (json * json) :=
  match item with
  | JArray [k; v] => if hashable k then Some (k, v) else None
  | JString s =>
      match Str.chars s with
      | [a; b] => Some (JString a, JString b)
      | _ => None
      end
  | JObject [(k, _); (k', _)] => Some (JString k, JString k')
  | _ => None
  end.

(** [d[k] = v]: a key that is there keeps its place and takes the value. *)
Fixpoint setitem (d : list (json * json)) (k v : json) : list (json * json) :=
  match d with
  | [] => [(k, v)]
  | (k', v') :: r =>
      if key_eq k' k then (k', v) :: r else (k', v') :: setitem r k v
  end.

Fixpoint dict_of_pairs (d : list (json * json)) (items : list json)
  : option (list (json * json)) :=
  match items with
  | [] => Some d
  | item :: rest =>
      match pair_of item with
      | Some (k, v) => dict_of_pairs (setitem d k v) rest
      | None => None
      end
  end.

(** [dict(v)]; [None] stands for its [TypeError] and [ValueError]. *)
Definition dict_of (v : json) : option (list (json * json)) :=
  match v with
  | JObject members => Some (map (fun kv => (JString (fst kv), snd kv)) members)
  | JArray items => dict_of_pairs [] items
  | JString s => dict_of_pairs [] (map JString (Str.chars s))
  | JNull | JBool _ | JInt _ | JFloat _ => None
  end.

End Builtins.

(** ** Exceptions *)

(** The classes that matter to the client: [Exception], [RuntimeError],
    the module's [JavaException], and the classes made at run time by
    [type(name, bases, {})]. *)
Inductive pyclass : Type :=
| Exception_
| RuntimeError_
| JavaException
| TypeNew (name : string) (bases : list pyclass).

Fixpoint pyclass_eqb (a b : pyclass) : bool :=
  match a, b with
  | Exception_, Exception_ => true
  | RuntimeError_, RuntimeError_ => true
  | JavaException, JavaException => true
  | TypeNew n bs, TypeNew n' bs' =>
      String.eqb n n' &&
      (fix all2 (l l' : list pyclass) : bool :=
         match l, l' with
         | [], [] => true
         | x :: r, y :: r' => pyclass_eqb x y && all2 r r'
         | _, _ => false
         end) bs bs'
  | _, _ => false
  end.

(** [issubclass(c, target)]: [class JavaException(Exception)] has the one
    base [Exception], and so has [RuntimeError]. *)
Fixpoint issubclass (target c : pyclass) : bool :=
  pyclass_eqb c target ||
  match c with
  | Exception_ => false
  | RuntimeError_ | JavaException => pyclass_eqb Exception_ target
  | TypeNew _ bases => existsb (issubclass target) bases
  end.

Definition class_name (c : pyclass) : string :=
  match c with
  | Exception_ => "Exception"
  | RuntimeError_ => "RuntimeError"
  | JavaException => "JavaException"
  | TypeNew name _ => name
  end.

(** An exception instance: its class, the arguments it was constructed
    with and the notes added by [add_note]. *)
Record exception : Type := {
  exc_class : pyclass;
  exc_args : list string;
  exc_notes : list string
}.

Definition instantiate (cls : pyclass) (args : list string) : exception :=
  {| exc_class := cls; exc_args := args; exc_notes := [] |}.

Definition add_note (e : exception) (note : string) : exception :=
  {| exc_class := exc_class e;
     exc_args := exc_args e;
     exc_notes := exc_notes e ++ [note] |}.

Definition isinstance (e : exception) (cls : pyclass) : bool :=
  issubclass cls (exc_class e).

(** Truthiness of an exception instance: these classes define neither
    [__bool__] nor [__len__]. *)
Definition exception_truthy (e : exception) : bool := true.

(** What a call can raise.  [TransportError] stands for whatever the
    aiohttp session raises; [ValidationError] lists the fields pydantic
    rejected, in declaration order. *)
Inductive raised : Type :=
| TransportError (why : string)
| TypeError
| ValueError
| OverflowError
| OSError
| ValidationError (fields : list string)
| StopAsyncIteration
| Thrown (e : exception)
| ExceptionGroup (message : string) (exceptions : list exception).

Inductive result (A : Type) : Type :=
| Return (a : A)
| Raised (e : raised).

Arguments Return {A} a.
Arguments Raised {A} e.

Definition bind {A B : Type} (r : result A) (k : A -> result B) : result B :=
  match r with
  | Return a => k a
  | Raised e => Raised e
  end.

(** [type(name, bases, {})]: a name that holds a lone surrogate or a NUL
    character is refused with a [ValueError] (the [UnicodeEncodeError]
    of the surrogate is one). *)
Definition type_ (name : string) (bases : list pyclass) : result pyclass :=
  if Str.unnameable name then Raised ValueError
  else Return (TypeNew name bases).

(** ** models.py *)

(** The outcome of the validation of one field: the value, a rejection
    that goes into the report, or an exception pydantic does not catch. *)
Inductive checked (A : Type) : Type :=
| Accepted (a : A)
| Rejected
| Aborted (e : raised).

Arguments Accepted {A} a.
Arguments Rejected {A}.
Arguments Aborted {A} e.

(** [_convert_timestamp(cls, timestamp)] as a validator: the
    [ValueError] of [fromtimestamp] is a rejection, its [OverflowError]
    and [OSError] pass through. *)
Definition _convert_timestamp (rt : Runtime) (timestamp : option Z)
  : checked (option datetime) :=
  match timestamp with
  | Some t =>
      match fromtimestamp rt t with
      | Converted d => Accepted (Some d)
      | OutOfRange => Rejected
      | Overflow => Aborted OverflowError
      | OsFailure => Aborted OSError
      end
  | None => Accepted None
  end.

Inductive Operation : Type :=
| READ | WRITE | EXEC | SEARCH | LIST | VERSION.

(** The value of each member, which is also its [__str__]. *)
Definition Operation_value (op : Operation) : string :=
  match op with
  | READ => "read"
  | WRITE => "write"
  | EXEC => "exec"
  | SEARCH => "search"
  | LIST => "list"
  | VERSION => "version"
  end.

(** [Operation(name)]: look a member up by value. *)
Definition Operation_of_value (name : string) : option Operation :=
  find (fun op => String.eqb (Operation_value op) name)
       [READ; WRITE; EXEC; SEARCH; LIST; VERSION].

(** *** How pydantic validates one field

    A validator returns [None] when it rejects the value.  The field
    declarations of models.py use the lax validators: an [int] field takes
    what [int(v)] converts, a [str] field takes a [str] or a number. *)
Module Validators.

Definition int_validator (rt : Runtime) (v : json) : option Z :=
  match v with
  | JInt n => Some n
  | JBool b => Some (Builtins.int_of_bool b)
  | JFloat f => Builtins.int_of_float f
  | JString s => Builtins.int_of_str rt s
  | JNull | JArray _ | JObject _ => None
  end.

(** [str(n)] is refused for an [int] of more digits than the limit. *)
Definition str_validator (rt : Runtime) (v : json) : option string :=
  match v with
  | JString s => Some s
  | JInt n =>
      if (String.length (Builtins.str_of_int (Z.abs n))
          <=? Builtins.max_str_digits)%nat
      then Some (Builtins.str_of_int n)
      else None
  | JBool b => Some (Builtins.str_of_bool b)
  | JFloat f => Some (repr_float rt f)
  | JNull | JArray _ | JObject _ => None
  end.

Definition enum_validator (v : json) : option Operation :=
  match v with
  | JString s => Operation_of_value s
  | _ => None
  end.

(** [Iterable[...]]: lists, and the strings and dicts that iterate over
    their characters and keys.  The field keeps an iterator over the
    items, which are not validated; it is held here by the items it
    yields. *)
Definition iterable_validator (v : json) : option (list json) :=
  match v with
  | JArray items => Some items
  | JString s => Some (map JString (Str.chars s))
  | JObject members => Some (map JString (dict_keys members))
  | JNull | JBool _ | JInt _ | JFloat _ => None
  end.

(** The keywords of a call with the items of a dict: every key has to be
    a [str]. *)
Fixpoint keywords (d : list (json * json)) : option dict :=
  match d with
  | [] => Some []
  | (JString k, v) :: r =>
      match keywords r with
      | Some kw => Some ((k, v) :: kw)
      | None => None
      end
  | _ :: _ => None
  end.

(** The keywords a model can be called with: [__init__] names its own
    first parameter [__pydantic_self__], which no keyword can then be. *)
Definition bindable (kw : dict) : bool :=
  negb (existsb (String.eqb "__pydantic_self__") (dict_keys kw)).

(** A field whose type is a model: a dict, or what [dict] makes a dict
    of, that the model can be called with and accepts. *)
Definition model_validator {A : Type} (model : dict -> result A) (v : json)
  : option A :=
  match Builtins.dict_of v with
  | Some d =>
      match keywords d with
      | Some kw =>
          if bindable kw
          then match model kw with
               | Return a => Some a
               | Raised _ => None
               end
          else None
      | None => None
      end
  | None => None
  end.

(** [result[key] = value] on a dict with [str] keys. *)
Fixpoint setitem (d : dict) (k : string) (v : json) : dict :=
  match d with
  | [] => [(k, v)]
  | (k', v') :: r =>
      if String.eqb k' k then (k', v) :: r else (k', v') :: setitem r k v
  end.

Fixpoint validated_items (rt : Runtime) (result : dict)
  (items : list (json * json)) : option dict :=
  match items with
  | [] => Some result
  | (k, v) :: r =>
      match str_validator rt k with
      | Some key => validated_items rt (setitem result key v) r
      | None => None
      end
  end.

(** [Mapping[str, Any]]: what [dict] makes a dict of, with its keys
    validated as [str]; the dict is then turned back into the class of
    the value given, a list of the keys for a list and the printed empty
    dict for the empty string. *)
Definition mapping_validator (rt : Runtime) (v : json) : option json :=
  match Builtins.dict_of v with
  | Some d =>
      match validated_items rt [] d with
      | Some result =>
          match v with
          | JArray _ => Some (JArray (map JString (dict_keys result)))
          | JString _ => Some (JString "{}")
          | _ => Some (JObject result)
          end
      | None => None
      end
  | None => None
  end.

(** A field without default: the keyword has to be there. *)
Definition required {A : Type} (validator : json -> option A)
  (supplied : option json) : option A :=
  match supplied with
  | Some v => validator v
  | None => None
  end.

(** A field [X | None = None]: a missing keyword and [None] give [None]. *)
Definition optional {A : Type} (validator : json -> option A)
  (supplied : option json) : option (option A) :=
  match supplied with
  | None | Some JNull => Some None
  | Some v => option_map Some (validator v)
  end.

(** A field with a default that is not [None]. *)
Definition defaulted {A : Type} (validator : json -> option A) (default : A)
  (supplied : option json) : option A :=
  match supplied with
  | None => Some default
  | Some v => validator v
  end.

(** [Any | None = None] *)
Definition any (supplied : option json) : json :=
  match supplied with
  | Some v => v
  | None => JNull
  end.

(** The [timestamp] fields: an optional [int], then the
    [_convert_timestamp] validator on what was given. *)
Definition timestamp_field (rt : Runtime) (supplied : option json)
  : checked (option datetime) :=
  match optional (int_validator rt) supplied with
  | Some t => _convert_timestamp rt t
  | None => Rejected
  end.

(** The location of a field in the error report, if it was rejected. *)
Definition rejected {A : Type} (name : string) (checked : option A)
  : list string :=
  match checked with
  | Some _ => []
  | None => [name]
  end.

(** The part of a [checked] outcome that goes into the report. *)
Definition reported {A : Type} (c : checked A) : option A :=
  match c with
  | Accepted a => Some a
  | Rejected | Aborted _ => None
  end.

End Validators.

Import Validators.

Module JolokiaRequest.

Record t : Type := {
  type : Operation;
  mbean : option string;
  attribute : option string;
  path : option string;
  value : json;
  operation_name : option string;
  arguments : option (list json)
}.

(** [JolokiaRequest.__init__] on the keywords [kw] of a call. *)
Definition init (rt : Runtime) (kw : dict) : result t :=
  let type_ := required enum_validator (dict_get "type" kw) in
  let mbean_ := optional (str_validator rt) (dict_get "mbean" kw) in
  let attribute_ := optional (str_validator rt) (dict_get "attribute" kw) in
  let path_ := optional (str_validator rt) (dict_get "path" kw) in
  let operation_name_ :=
    optional (str_validator rt) (dict_get "operation_name" kw) in
  let arguments_ := optional iterable_validator (dict_get "arguments" kw) in
  match type_, mbean_, attribute_, path_, operation_name_, arguments_ with
  | Some ty, Some mb, Some at_, Some pa, Some on, Some ar =>
      Return {| type := ty; mbean := mb; attribute := at_; path := pa;
                value := any (dict_get "value" kw);
                operation_name := on; arguments := ar |}
  | _, _, _, _, _, _ =>
      Raised (ValidationError
                (rejected "type" type_ ++ rejected "mbean" mbean_ ++
                 rejected "attribute" attribute_ ++ rejected "path" path_ ++
                 rejected "operation_name" operation_name_ ++
                 rejected "arguments" arguments_))
  end.

(** What the JSON encoder makes of a value. *)
Definition encoded (v : json) : result json :=
  if Builtins.encodable v then Return v else Raised ValueError.

(** The fields in declaration order with what the JSON encoder makes of
    each: nothing for a field that holds [None], and a [TypeError] for
    the iterator that [arguments] holds, which it cannot serialize. *)
Definition fields (r : t) : list (string * option (result json)) :=
  [ ("type", Some (Return (JString (Operation_value (type r)))));
    ("mbean", option_map (fun s => Return (JString s)) (mbean r));
    ("attribute", option_map (fun s => Return (JString s)) (attribute r));
    ("path", option_map (fun s => Return (JString s)) (path r));
    ("value", match value r with JNull => None | v => Some (encoded v) end);
    ("operation_name",
     option_map (fun s => Return (JString s)) (operation_name r));
    ("arguments", option_map (fun _ => Raised TypeError) (arguments r)) ].

(** A field that is to be written: it holds something other than [None]. *)
Definition written (f : string * option (result json)) : bool :=
  match snd f with
  | Some _ => true
  | None => false
  end.

Fixpoint exclude_none (l : list (string * option (result json))) : result dict :=
  match l with
  | [] => Return []
  | (_, None) :: l' => exclude_none l'
  | (k, Some (Return v)) :: l' =>
      bind (exclude_none l') (fun d => Return ((k, v) :: d))
  | (_, Some (Raised e)) :: _ => Raised e
  end.

(** [request.json(exclude_none=True)], as the object the text denotes. *)
Definition json_exclude_none (r : t) : result json :=
  bind (exclude_none (fields r)) (fun d => Return (JObject d)).

(** The request can be serialized: its [value] can be written and it
    holds no [arguments]. *)
Definition serializable (r : t) : bool :=
  Builtins.encodable (value r) &&
  match arguments r with
  | None => true
  | Some _ => false
  end.

(** [__eq__] compares these seven attributes in this order. *)
Definition compared : list string :=
  ["type"; "mbean"; "attribute"; "path"; "value"; "operation_name"; "arguments"].

End JolokiaRequest.

Module HistoricalValue.

Record t : Type := {
  value : json;
  timestamp : option datetime
}.

Definition init (rt : Runtime) (kw : dict) : result t :=
  match timestamp_field rt (dict_get "timestamp" kw) with
  | Accepted ts =>
      Return {| value := any (dict_get "value" kw); timestamp := ts |}
  | Rejected => Raised (ValidationError ["timestamp"])
  | Aborted e => Raised e
  end.

End HistoricalValue.

Module JolokiaResponse.

Record t : Type := {
  status : Z;
  value : json;
  history : option (list json);
  request : option JolokiaRequest.t;
  timestamp : option datetime;
  error_type : option string;
  error : option string;
  stacktrace : option string
}.

(** [JolokiaResponse.__init__] on the keywords [kw] of a call; keywords
    that name no field are ignored.  An exception that passes through the
    validation of [timestamp] ends the call, whatever the other fields. *)
Definition init (rt : Runtime) (kw : dict) : result t :=
  let status_ := required (int_validator rt) (dict_get "status" kw) in
  let history_ := optional iterable_validator (dict_get "history" kw) in
  let request_ :=
    optional (model_validator (JolokiaRequest.init rt)) (dict_get "request" kw) in
  let timestamp_ := timestamp_field rt (dict_get "timestamp" kw) in
  let error_type_ := optional (str_validator rt) (dict_get "error_type" kw) in
  let error_ := optional (str_validator rt) (dict_get "error" kw) in
  let stacktrace_ := optional (str_validator rt) (dict_get "stacktrace" kw) in
  match timestamp_ with
  | Aborted e => Raised e
  | _ =>
      match status_, history_, request_, reported timestamp_,
            error_type_, error_, stacktrace_ with
      | Some st, Some hi, Some re, Some ts, Some et, Some er, Some tr =>
          Return {| status := st; value := any (dict_get "value" kw);
                    history := hi; request := re; timestamp := ts;
                    error_type := et; error := er; stacktrace := tr |}
      | _, _, _, _, _, _, _ =>
          Raised (ValidationError
                    (rejected "status" status_ ++ rejected "history" history_ ++
                     rejected "request" request_ ++
                     rejected "timestamp" (reported timestamp_) ++
                     rejected "error_type" error_type_ ++
                     rejected "error" error_ ++
                     rejected "stacktrace" stacktrace_))
      end
  end.

End JolokiaResponse.

Module JolokiaVersionInfo.

Record t : Type := {
  product : string;
  vendor : string;
  version : string;
  extraInfo : json
}.

(** [_JolokiaVersionInfo.__init__] on the keywords of a call;
    [extraInfo] is filled by its alias. *)
Definition init (rt : Runtime) (kw : dict) : result t :=
  let product_ := required (str_validator rt) (dict_get "product" kw) in
  let vendor_ := required (str_validator rt) (dict_get "vendor" kw) in
  let version_ := required (str_validator rt) (dict_get "version" kw) in
  let extra_ :=
    defaulted (mapping_validator rt) (JObject []) (dict_get "extra_info" kw) in
  match product_, vendor_, version_, extra_ with
  | Some p, Some v, Some n, Some x =>
      Return {| product := p; vendor := v; version := n; extraInfo := x |}
  | _, _, _, _ =>
      Raised (ValidationError
                (rejected "product" product_ ++ rejected "vendor" vendor_ ++
                 rejected "version" version_ ++ rejected "extra_info" extra_))
  end.

End JolokiaVersionInfo.

Module JolokiaVersion.

Record t : Type := {
  protocol : string;
  agent : string;
  config : json;
  info : JolokiaVersionInfo.t
}.

Definition init (rt : Runtime) (kw : dict) : result t :=
  let protocol_ := required (str_validator rt) (dict_get "protocol" kw) in
  let agent_ := required (str_validator rt) (dict_get "agent" kw) in
  let config_ :=
    defaulted (mapping_validator rt) (JObject []) (dict_get "config" kw) in
  let info_ :=
    required (model_validator (JolokiaVersionInfo.init rt))
      (dict_get "info" kw) in
  match protocol_, agent_, config_, info_ with
  | Some p, Some a, Some c, Some i =>
      Return {| protocol := p; agent := a; config := c; info := i |}
  | _, _, _, _ =>
      Raised (ValidationError
                (rejected "protocol" protocol_ ++ rejected "agent" agent_ ++
                 rejected "config" config_ ++ rejected "info" info_))
  end.

End JolokiaVersion.

(** A model called with a value unpacked as keywords: the value unpacked
    has to be a mapping, and its keys keywords the call can bind. *)
Definition call_kw {A : Type} (model : dict -> result A) (arg : json) : result A :=
  match arg with
  | JObject kw => if bindable kw then model kw else Raised TypeError
  | _ => Raised TypeError
  end.

(** ** client.py *)

(** The HTTP side: what one POST of a body to a URL comes back with, the
    decoded JSON of the reply or a failure of the session. *)
Record BasicAuth : Type := { login : string; password : string }.

Inductive transport : Type :=
| Replied (body : json)
| Failed (why : string).

Definition network : Type := string -> option BasicAuth -> json -> transport.

Module JolokiaClient.

Record t : Type := {
  _base_url : string;
  _auth : option BasicAuth;
  _raise : bool
}.

(** [JolokiaClient(base_url, auth=None, raise_exceptions=False)] *)
Definition init (base_url : string) (auth : option BasicAuth)
  (raise_exceptions : bool) : t :=
  {| _base_url := base_url; _auth := auth; _raise := raise_exceptions |}.

Definition _build_exception (response : JolokiaResponse.t) : result exception :=
  let exc_name : string :=
    match JolokiaResponse.error_type response with
    | Some error_type =>
        if Str.truthy error_type
        then last (Str.split "." error_type) EmptyString
        else "Throwable"
    | None => "Throwable"
    end in
  let exc_msg : option string :=
    match JolokiaResponse.error response with
    | Some error =>
        if Str.truthy error
        then Some (Str.join ": " (tl (Str.split ": " error)))
        else None
    | None => None
    end in
  bind (type_ exc_name [JavaException]) (fun exc_cls =>
  let exc :=
    match exc_msg with
    | Some msg =>
        if Str.truthy msg then instantiate exc_cls [msg] else instantiate exc_cls []
    | None => instantiate exc_cls []
    end in
  Return
    match JolokiaResponse.stacktrace response with
    | Some stacktrace =>
        if Str.truthy stacktrace then add_note exc stacktrace else exc
    | None => exc
    end).

(** The serialized operations, one after the other; the first that
    cannot be serialized ends the loop. *)
Fixpoint serialized (operations : list JolokiaRequest.t) : result (list json) :=
  match operations with
  | [] => Return []
  | request :: rest =>
      bind (JolokiaRequest.json_exclude_none request) (fun o =>
      bind (serialized rest) (fun l => Return (o :: l)))
  end.

(** The body of the POST: the array of the serialized operations. *)
Definition data (operations : list JolokiaRequest.t) : result json :=
  bind (serialized operations) (fun l => Return (JArray l)).

Definition fetch_json (net : network) (self : t)
  (operations : list JolokiaRequest.t) : result json :=
  bind (data operations) (fun body =>
  match net (_base_url self) (_auth self) body with
  | Replied json_obj => Return json_obj
  | Failed why => Raised (TransportError why)
  end).

(** [json_obj] after [if not isinstance(json_obj, Sequence)]: a list is
    a [Sequence] and so is a [str]; anything else is wrapped. *)
Definition as_sequence (json_obj : json) : list json :=
  match json_obj with
  | JArray items => items
  | JString s => map JString (Str.chars s)
  | other => [other]
  end.

(** *** The asynchronous generator [request]

    Calling [request] runs nothing; each [__anext__] runs the body up to
    the next [yield], or to the exception that ends it
    ([StopAsyncIteration] when the body returns). *)
Inductive generator : Type :=
| Created (operations : list JolokiaRequest.t)
| Suspended (pending : list json) (exceptions : list exception)
| Finished.

Inductive step : Type :=
| Yield (response : JolokiaResponse.t)
| Stop (e : raised).

(** The body of the loop up to its [yield]: the response and the list of
    exceptions after it. *)
Definition entry (rt : Runtime) (item : json) (exceptions : list exception)
  : result (JolokiaResponse.t * list exception)%type :=
  bind (call_kw (JolokiaResponse.init rt) item) (fun response =>
  if 400 <=? JolokiaResponse.status response
  then bind (_build_exception response) (fun exc =>
       Return (response, (exceptions ++ [exc])%list))
  else Return (response, exceptions)).

(** The [for] loop from the entry it is about to take. *)
Definition resume (rt : Runtime) (self : t)
  (pending : list json) (exceptions : list exception) : step * generator :=
  match pending with
  | result :: pending' =>
      match entry rt result exceptions with
      | Return (response, exceptions') =>
          (Yield response, Suspended pending' exceptions')
      | Raised e => (Stop e, Finished)
      end
  | [] =>
      match _raise self, exceptions with
      | true, _ :: _ =>
          (Stop (ExceptionGroup "JolokiaException" exceptions), Finished)
      | _, _ => (Stop StopAsyncIteration, Finished)
      end
  end.

Definition anext (rt : Runtime) (net : network) (self : t) (g : generator)
  : step * generator :=
  match g with
  | Created operations =>
      match fetch_json net self operations with
      | Return json_obj => resume rt self (as_sequence json_obj) []
      | Raised e => (Stop e, Finished)
      end
  | Suspended pending exceptions => resume rt self pending exceptions
  | Finished => (Stop StopAsyncIteration, Finished)
  end.

Definition request (operations : list JolokiaRequest.t) : generator :=
  Created operations.

(** A consumer that iterates to the end: the responses it receives, in
    order, and then the exception that ends the iteration. *)
Inductive drains (rt : Runtime) (net : network) (self : t)
  : generator -> list JolokiaResponse.t -> raised -> Prop :=
| drains_stop g g' e :
    anext rt net self g = (Stop e, g') ->
    drains rt net self g [] e
| drains_yield g g' response responses e :
    anext rt net self g = (Yield response, g') ->
    drains rt net self g' responses e ->
    drains rt net self g (response :: responses) e.

(** The same as a function on the entries still to be taken. *)
Fixpoint iterate (rt : Runtime) (self : t)
  (pending : list json) (exceptions : list exception)
  : list JolokiaResponse.t * raised :=
  match pending with
  | result :: pending' =>
      match entry rt result exceptions with
      | Return (response, exceptions') =>
          let (responses, e) := iterate rt self pending' exceptions' in
          (response :: responses, e)
      | Raised e => ([], e)
      end
  | [] =>
      match _raise self, exceptions with
      | true, _ :: _ => ([], ExceptionGroup "JolokiaException" exceptions)
      | _, _ => ([], StopAsyncIteration)
      end
  end.

Definition consume (rt : Runtime) (net : network) (self : t) (g : generator)
  : list JolokiaResponse.t * raised :=
  match g with
  | Created operations =>
      match fetch_json net self operations with
      | Return json_obj => iterate rt self (as_sequence json_obj) []
      | Raised e => ([], e)
      end
  | Suspended pending exceptions => iterate rt self pending exceptions
  | Finished => ([], StopAsyncIteration)
  end.

(** [JolokiaRequest(type=Operation.VERSION)] *)
Definition version_request : JolokiaRequest.t :=
  {| JolokiaRequest.type := VERSION;
     JolokiaRequest.mbean := None;
     JolokiaRequest.attribute := None;
     JolokiaRequest.path := None;
     JolokiaRequest.value := JNull;
     JolokiaRequest.operation_name := None;
     JolokiaRequest.arguments := None |}.

(** The [version] property: one [__anext__] on a fresh generator. *)
Definition version (rt : Runtime) (net : network) (self : t)
  : result JolokiaVersion.t :=
  match fst (anext rt net self (request [version_request])) with
  | Stop e => Raised e
  | Yield response =>
      if JolokiaResponse.status response =? 200
      then call_kw (JolokiaVersion.init rt) (JolokiaResponse.value response)
      else
        bind (_build_exception response) (fun exc =>
        if exception_truthy exc
        then Raised (Thrown exc)
        else Raised (Thrown (instantiate RuntimeError_
               ["Undefined exception happened while requesting version."])))
  end.

End JolokiaClient.

Import JolokiaClient.

(** ** [JolokiaRequest.__eq__] *)

Module Equality.

(** [a == b] on decoded JSON values: [bool] is a kind of [int], numbers
    are compared by value, lists entry by entry and dicts key by key,
    whatever the order of their items. *)
Fixpoint py_eq (a b : json) : bool :=
  match a, b with
  | JNull, JNull => true
  | JBool x, JBool y => Bool.eqb x y
  | JBool x, JInt n | JInt n, JBool x => Builtins.int_of_bool x =? n
  | JBool x, JFloat f | JFloat f, JBool x =>
      Builtins.float_eq_int f (Builtins.int_of_bool x)
  | JInt n, JInt m => n =? m
  | JInt n, JFloat f | JFloat f, JInt n => Builtins.float_eq_int f n
  | JFloat f, JFloat g => Builtins.float_eq f g
  | JString s, JString t => String.eqb s t
  | JArray l, JArray l' =>
      (fix all2 (l l' : list json) : bool :=
         match l, l' with
         | [], [] => true
         | x :: r, y :: r' => py_eq x y && all2 r r'
         | _, _ => false
         end) l l'
  | JObject d, JObject d' =>
      (List.length d =? List.length d')%nat &&
      (fix all (items : list (string * json)) : bool :=
         match items with
         | [] => true
         | (k, v) :: r =>
             match dict_get k d' with
             | Some v' => py_eq v v'
             | None => false
             end && all r
         end) d
  | _, _ => false
  end.

Definition operation_eq (a b : Operation) : bool :=
  String.eqb (Operation_value a) (Operation_value b).

Definition str_eq (a b : option string) : bool :=
  match a, b with
  | Some s, Some t => String.eqb s t
  | None, None => true
  | _, _ => false
  end.

Fixpoint list_eq (l l' : list json) : bool :=
  match l, l' with
  | [] , [] => true
  | x :: r, y :: r' => py_eq x y && list_eq r r'
  | _, _ => false
  end.

(** The iterators two requests hold under [arguments] are equal when
    they are one object; they are compared here by what they yield,
    which two names of one iterator agree on. *)
Definition arguments_eq (a b : option (list json)) : bool :=
  match a, b with
  | Some l, Some l' => list_eq l l'
  | None, None => true
  | _, _ => false
  end.

(** What [__eq__] can be handed: a request or anything else. *)
Inductive object : Type :=
| IsRequest (r : JolokiaRequest.t)
| NotRequest (v : json).

(** [self.__eq__(__value)]: the seven attributes are compared in turn and
    the first that differs answers [False]. *)
Definition __eq__ (self : JolokiaRequest.t) (__value : object) : bool :=
  match __value with
  | NotRequest _ => false
  | IsRequest other =>
      if negb (operation_eq (JolokiaRequest.type self) (JolokiaRequest.type other))
      then false
      else if negb (str_eq (JolokiaRequest.mbean self) (JolokiaRequest.mbean other))
      then false
      else if negb (str_eq (JolokiaRequest.attribute self)
                      (JolokiaRequest.attribute other))
      then false
      else if negb (str_eq (JolokiaRequest.path self) (JolokiaRequest.path other))
      then false
      else if negb (py_eq (JolokiaRequest.value self) (JolokiaRequest.value other))
      then false
      else if negb (str_eq (JolokiaRequest.operation_name self)
                      (JolokiaRequest.operation_name other))
      then false
      else if negb (arguments_eq (JolokiaRequest.arguments self)
                      (JolokiaRequest.arguments other))
      then false
      else true
  end.

End Equality.

(** ** __main__.py *)

Module Main.

(** The commands the sub-parsers are registered under. *)
Definition subcommands : list string :=
  ["read"; "write"; "exec"; "search"; "list"; "version"].

(** The [Namespace] that [parse_args] returns: the arguments of the root
    parser and, under [options], the attributes the chosen sub-parser
    sets, by destination. *)
Record Namespace : Type := {
  base_url : string;
  username : option string;
  password : string;
  request : string;
  options : dict
}.

Definition of_option (s : option string) : json :=
  match s with
  | Some t => JString t
  | None => JNull
  end.

(** [args.__dict__] *)
Definition __dict__ (args : Namespace) : dict :=
  ([ ("base_url", JString (base_url args));
     ("username", of_option (username args));
     ("password", JString (password args));
     ("request", JString (request args)) ] ++ options args)%list.

(** [d.get(key)] *)
Definition get (key : string) (d : dict) : json :=
  match dict_get key d with
  | Some v => v
  | None => JNull
  end.

Definition kwargs (args : Namespace) : dict :=
  map (fun key => (key, get key (__dict__ args)))
      ["mbean"; "attribute"; "path"; "value"; "operation"; "arguments"].

(** [BasicAuth(login=..., password=...)] of aiohttp refuses a login that
    holds a colon with a [ValueError]. *)
Definition basic_auth (user pass : string) : result BasicAuth :=
  if Str.occurs ":" user then Raised ValueError
  else Return (Build_BasicAuth user pass).

Definition auth (args : Namespace) : result (option BasicAuth) :=
  match username args with
  | Some user =>
      if Str.truthy user
      then bind (basic_auth user (password args)) (fun a => Return (Some a))
      else Return None
  | None => Return None
  end.

Definition client (auth : option BasicAuth) (args : Namespace)
  : JolokiaClient.t :=
  JolokiaClient.init (base_url args) auth false.

(** [JolokiaRequest(type=Operation(args.request), **kwargs)]; the outer
    [None] is the [ValueError] of [Operation] on a name that is no member.
    The member is handed to the model by its value, which the validator of
    the field maps back to the member. *)
Definition build_request (rt : Runtime) (args : Namespace)
  : option (result JolokiaRequest.t) :=
  match Operation_of_value (request args) with
  | Some op =>
      Some (JolokiaRequest.init rt
              (("type", JString (Operation_value op)) :: kwargs args))
  | None => None
  end.

(** How the tool ends: [print] was called with the reply, or an
    exception went uncaught. *)
Inductive outcome : Type :=
| Printed (response : json)
| Uncaught (e : raised).

(** [_main()] from the parsed arguments on. *)
Definition _main (rt : Runtime) (net : network) (args : Namespace) : outcome :=
  match auth args with
  | Raised e => Uncaught e
  | Return auth =>
      match build_request rt args with
      | None => Uncaught ValueError
      | Some (Raised e) => Uncaught e
      | Some (Return request) =>
          match fetch_json net (client auth args) [request] with
          | Return response => Printed response
          | Raised e => Uncaught e
          end
      end
  end.

(** The values [argparse] stores: a [str], [None], or a list of [str]. *)
Definition is_str (v : json) : bool :=
  match v with JString _ => true | _ => false end.

Definition argparse_value (v : json) : bool :=
  match v with
  | JString _ | JNull => true
  | JArray l => forallb is_str l
  | _ => false
  end.

Definition str_or_none (v : json) : bool :=
  match v with
  | JString _ | JNull => true
  | _ => false
  end.

End Main.

(** ** Notions the properties are stated with *)

(** An entry of the reply is accepted as a response. *)
Definition parses (rt : Runtime) (item : json) (response : JolokiaResponse.t)
  : Prop :=
  call_kw (JolokiaResponse.init rt) item = Return response.

(** The entries the server marks as failed. *)
Definition failed (response : JolokiaResponse.t) : bool :=
  400 <=? JolokiaResponse.status response.

(** The exception of a failed response is built. *)
Definition synthesizes (response : JolokiaResponse.t) (exc : exception) : Prop :=
  _build_exception response = Return exc.

(** What ends the iteration once every entry was yielded. *)
Definition ending (self : JolokiaClient.t) (exceptions : list exception) : raised :=
  match _raise self, exceptions with
  | true, _ :: _ => ExceptionGroup "JolokiaException" exceptions
  | _, _ => StopAsyncIteration
  end.

(** The exceptions an aggregate carries. *)
Definition group_members (e : raised) : list exception :=
  match e with
  | ExceptionGroup _ exceptions => exceptions
  | _ => []
  end.

(** The errors that end the body of the loop before its [yield]. *)
Definition entry_error (e : raised) : Prop :=
  e = TypeError \/ (exists fields, e = ValidationError fields) \/
  e = OverflowError \/ e = OSError \/ e = ValueError.



(** The conversion of the keyword [timestamp] raises an exception that
    pydantic lets through. *)
Definition timestamp_aborts (rt : Runtime) (kw : dict) : Prop :=
  exists e, timestamp_field rt (dict_get "timestamp" kw) = Aborted e.





(** *** Cutting a string at a separator *)

(** [drop k s]: [s] without its first [k] characters. *)
Fixpoint drop (k : nat) (s : string) : string :=
  match k, s with
  | S k', String _ s' => drop k' s'
  | _, _ => s
  end.

(** [partition sep s]: the text before and the text after the first
    occurrence of [sep] in [s], if there is one. *)
Fixpoint partition (sep s : string) : option (string * string) :=
  match s with
  | EmptyString => None
  | String c s' =>
      if String.prefix sep s
      then Some (EmptyString, drop (String.length sep) s)
      else match partition sep s' with
           | Some (before, after) => Some (String c before, after)
           | None => None
           end
  end.

(** [after_last c s]: the text after the last [c] in [s], and [s] itself
    when there is no [c]. *)
Fixpoint after_last (c : ascii) (s : string) : string :=
  match s with
  | EmptyString => EmptyString
  | String x s' =>
      if Str.occurs c s' then after_last c s'
      else if Ascii.eqb x c then s' else s
  end.

(** The name [_build_exception] gives the class: the text after the last
    dot of a non-empty [error_type], and [Throwable] otherwise. *)
Definition synthesized_name (response : JolokiaResponse.t) : string :=
  match JolokiaResponse.error_type response with
  | Some error_type =>
      if Str.truthy error_type then after_last "." error_type else "Throwable"
  | None => "Throwable"
  end.

(** ** Sample replies *)

Module Samples.

(** A runtime to run the examples with.  None of them holds a
    timestamp, a [float] or text outside ASCII, so that it is never
    asked; it answers like a host that converts nothing. *)
Definition runtime : Runtime :=
  {| fromtimestamp := fun _ => OutOfRange;
     int_of_text := fun _ => None;
     repr_float := fun _ => "nan" |}.

Definition reply (body : json) : network := fun _ _ _ => Replied body.

Definition unreachable : network := fun _ _ _ => Failed "connection refused".

Definition client (raise_exceptions : bool) : JolokiaClient.t :=
  JolokiaClient.init "http://localhost:8080/jolokia" None raise_exceptions.

Definition read_request : JolokiaRequest.t :=
  {| JolokiaRequest.type := READ;
     JolokiaRequest.mbean := Some "java.lang:type=Memory";
     JolokiaRequest.attribute := Some "HeapMemoryUsage";
     JolokiaRequest.path := None;
     JolokiaRequest.value := JNull;
     JolokiaRequest.operation_name := None;
     JolokiaRequest.arguments := None |}.

(** An EXEC request with one argument. *)
Definition exec_request : JolokiaRequest.t :=
  {| JolokiaRequest.type := EXEC;
     JolokiaRequest.mbean := Some "java.lang:type=Memory";
     JolokiaRequest.attribute := None;
     JolokiaRequest.path := None;
     JolokiaRequest.value := JNull;
     JolokiaRequest.operation_name := Some "gc";
     JolokiaRequest.arguments := Some [JString "full"] |}.

(** A WRITE request with the value zero. *)
Definition write_request : JolokiaRequest.t :=
  {| JolokiaRequest.type := WRITE;
     JolokiaRequest.mbean := Some "java.lang:type=Memory";
     JolokiaRequest.attribute := Some "Verbose";
     JolokiaRequest.path := None;
     JolokiaRequest.value := JInt 0;
     JolokiaRequest.operation_name := None;
     JolokiaRequest.arguments := None |}.

Definition version_value : json :=
  JObject [("protocol", JString "7.2"); ("agent", JString "1.6.0");
           ("info", JObject [("product", JString "jolokia");
                             ("vendor", JString "x");
                             ("version", JString "1")])].

Definition version_reply : json :=
  JObject [("status", JInt 200); ("value", version_value)].

Definition not_found_reply : json :=
  JObject [("status", JInt 404);
           ("error_type", JString "java.lang.IllegalArgumentException");
           ("error",
            JString "java.lang.IllegalArgumentException: no such endpoint")].

Definition heap_reply : json :=
  JObject [("status", JInt 200); ("value", JInt 1024)].

(** The name of a class with a NUL character in it, as a reply can hold
    it (the escape [\u0000] of JSON). *)
Definition nul_name : string := String "E" (String zero (String "x" EmptyString)).

(** A failed entry whose [error_type] ends in that name. *)
Definition nul_reply : json :=
  JObject [("status", JInt 500);
           ("error_type", JString ("java.lang." ++ nul_name))].

(** The parsed form of an entry that only carries these fields. *)
Definition response (status : Z) (value : json)
  (error_type error : option string) : JolokiaResponse.t :=
  {| JolokiaResponse.status := status;
     JolokiaResponse.value := value;
     JolokiaResponse.history := None;
     JolokiaResponse.request := None;
     JolokiaResponse.timestamp := None;
     JolokiaResponse.error_type := error_type;
     JolokiaResponse.error := error;
     JolokiaResponse.stacktrace := None |}.

Definition not_found : JolokiaResponse.t :=
  response 404 JNull (Some "java.lang.IllegalArgumentException")
    (Some "java.lang.IllegalArgumentException: no such endpoint").

Definition heap : JolokiaResponse.t := response 200 (JInt 1024) None None.

Definition nul_response : JolokiaResponse.t :=
  response 500 JNull (Some ("java.lang." ++ nul_name)) None.

(** The exception synthesized from [not_found]. *)
Definition not_found_exception : exception :=
  instantiate (TypeNew "IllegalArgumentException" [JavaException])
    ["no such endpoint"].

End Samples.

(** * Properties *)

(** Case analysis on the outcome of every field of a model. *)
Ltac field_cases :=
  cbv zeta;
  repeat match goal with
         | |- context [match ?checked with Some _ => _ | None => _ end] =>
             destruct checked
         end.

(** ** The generator and its consumer *)

Section Consumer.

Variable rt : Runtime.
Variable net : network.
Variable self : JolokiaClient.t.

Lemma resume_nil exceptions :
  resume rt self [] exceptions = (Stop (ending self exceptions), Finished).
Proof.
  unfold resume, ending. destruct (_raise self), exceptions; reflexivity.
Qed.

Lemma iterate_nil exceptions :
  iterate rt self [] exceptions = ([], ending self exceptions).
Proof.
  unfold ending. simpl. destruct (_raise self), exceptions; reflexivity.
Qed.

Lemma drains_iterate pending :
  forall exceptions,
    drains rt net self (Suspended pending exceptions)
      (fst (iterate rt self pending exceptions))
      (snd (iterate rt self pending exceptions)).
Proof.
  induction pending as [|item pending IH]; intros exceptions.
  - rewrite iterate_nil. eapply drains_stop. simpl anext. apply resume_nil.
  - simpl. destruct (entry rt item exceptions) as [[response exceptions']|e] eqn:E.
    + specialize (IH exceptions').
      destruct (iterate rt self pending exceptions') as [rs e'].
      simpl in *. eapply drains_yield; [|exact IH].
      simpl. rewrite E. reflexivity.
    + simpl. eapply drains_stop. simpl. rewrite E. reflexivity.
Qed.

Lemma drains_consume g :
  drains rt net self g (fst (consume rt net self g)) (snd (consume rt net self g)).
Proof.
  destruct g as [operations|pending exceptions|]; simpl.
  - destruct (fetch_json net self operations) as [json_obj|e] eqn:E.
    + pose proof (drains_iterate (as_sequence json_obj) []) as D.
      inversion D as [g g' e' A Hg Hrs He | g g' r rs e' A D' Hg Hrs He].
      * eapply drains_stop. simpl. rewrite E. exact A.
      * eapply drains_yield; [|exact D']. simpl. rewrite E. exact A.
    + simpl. eapply drains_stop. simpl. rewrite E. reflexivity.
  - apply drains_iterate.
  - eapply drains_stop. reflexivity.
Qed.

Lemma drains_unique g responses e :
  drains rt net self g responses e ->
  forall responses' e',
    drains rt net self g responses' e' -> responses = responses' /\ e = e'.
Proof.
  induction 1 as [g g' e A | g g' r rs e A D IH]; intros rs' e' D';
    inversion D' as [g0 g0' e0 A' | g0 g0' r0 rs0 e0 A' D0]; subst;
    rewrite A in A'; inversion A'; subst.
  - split; reflexivity.
  - destruct (IH _ _ D0) as [-> ->]. split; reflexivity.
Qed.

(** Every consumer observes what [consume] computes. *)
Lemma drains_iff_consume g responses e :
  drains rt net self g responses e <-> consume rt net self g = (responses, e).
Proof.
  split.
  - intros D. destruct (drains_unique _ _ _ D _ _ (drains_consume g)) as [-> ->].
    destruct (consume rt net self g); reflexivity.
  - intros E. pose proof (drains_consume g) as D. rewrite E in D. exact D.
Qed.

(** An entry that parses, and whose exception is built when it failed,
    is yielded. *)
Lemma entry_parsed item response exceptions :
  parses rt item response ->
  forall built,
    Forall2 synthesizes (filter failed [response]) built ->
    entry rt item exceptions = Return (response, (exceptions ++ built)%list).
Proof.
  unfold parses, entry. intros -> built F. simpl. fold (failed response).
  simpl in F. destruct (failed response).
  - inversion F as [|r exc l l' S F']; subst. inversion F'; subst.
    unfold synthesizes in S. rewrite S. reflexivity.
  - inversion F; subst. rewrite app_nil_r. reflexivity.
Qed.

Lemma iterate_parsed pending :
  forall responses exceptions built,
    Forall2 (parses rt) pending responses ->
    Forall2 synthesizes (filter failed responses) built ->
    iterate rt self pending exceptions =
    (responses, ending self (exceptions ++ built)).
Proof.
  induction pending as [|item pending IH]; intros responses exceptions built F S;
    inversion F as [|item' r pending' rs P F']; subst.
  - simpl in S. inversion S; subst. rewrite app_nil_r. apply iterate_nil.
  - simpl in S. simpl iterate.
    destruct (failed r) eqn:Fr.
    + inversion S as [|r' exc l built' Sr S']; subst.
      rewrite (entry_parsed item r exceptions P [exc])
        by (simpl; rewrite Fr; constructor; [exact Sr|constructor]).
      rewrite (IH rs (exceptions ++ [exc])%list built' F' S').
      rewrite <- app_assoc. reflexivity.
    + rewrite (entry_parsed item r exceptions P [])
        by (simpl; rewrite Fr; constructor).
      rewrite app_nil_r. rewrite (IH rs exceptions built F' S). reflexivity.
Qed.

End Consumer.

(** ** What a model can raise *)

Lemma request_init_raises rt kw e :
  JolokiaRequest.init rt kw = Raised e -> exists fields, e = ValidationError fields.
Proof.
  unfold JolokiaRequest.init. field_cases; intros H; inversion H; eauto.
Qed.

Lemma response_init_raises rt kw e :
  JolokiaResponse.init rt kw = Raised e ->
  (exists fields, e = ValidationError fields) \/ e = OverflowError \/ e = OSError.
Proof.
  unfold JolokiaResponse.init.
  destruct (timestamp_field rt (dict_get "timestamp" kw)) as [ts| |e'] eqn:T.
  - field_cases; intros H; inversion H; eauto.
  - field_cases; intros H; inversion H; eauto.
  - intros H. inversion H; subst. right.
    unfold timestamp_field in T.
    destruct (optional (int_validator rt) (dict_get "timestamp" kw)) as [t|];
      [|discriminate].
    unfold _convert_timestamp in T. destruct t as [t|]; [|discriminate].
    destruct (fromtimestamp rt t); inversion T; auto.
Qed.

Lemma version_init_raises rt kw e :
  JolokiaVersion.init rt kw = Raised e -> exists fields, e = ValidationError fields.
Proof.
  unfold JolokiaVersion.init. field_cases; intros H; inversion H; eauto.
Qed.

Lemma build_exception_raises response e :
  _build_exception response = Raised e -> e = ValueError.
Proof.
  unfold _build_exception, type_, bind.
  match goal with
  | |- context [Str.unnameable ?name] => destruct (Str.unnameable name)
  end; intros H; inversion H. reflexivity.
Qed.

Lemma entry_raises rt item exceptions e :
  entry rt item exceptions = Raised e -> entry_error e.
Proof.
  unfold entry, entry_error.
  destruct (call_kw (JolokiaResponse.init rt) item) as [response|e'] eqn:P;
    simpl.
  - destruct (400 <=? JolokiaResponse.status response); [|discriminate].
    destruct (_build_exception response) eqn:B; simpl; [discriminate|].
    intros H. inversion H; subst. apply build_exception_raises in B. auto 10.
  - intros H. inversion H; subst. destruct item; simpl in P;
      try (inversion P; auto).
    destruct (bindable members); [|inversion P; auto].
    apply response_init_raises in P.
    destruct P as [[f ->]|[->| ->]]; eauto 10.
Qed.

(** ** Order of the responses *)

(** C1.  The code does not deliver every response: a reply of two
    entries, both of which parse, to two requests yields the first
    response only.  The second entry is a failed one whose [error_type]
    ends in a name with a NUL character; [type] refuses the name while
    the exception is built, before the [yield], and the iteration ends
    in that [ValueError] with one response delivered where two were to
    be. *)
Theorem request_withholds_response :
  parses Samples.runtime Samples.heap_reply Samples.heap /\
  parses Samples.runtime Samples.nul_reply Samples.nul_response /\
  _build_exception Samples.nul_response = Raised ValueError /\
  drains Samples.runtime
    (Samples.reply (JArray [Samples.heap_reply; Samples.nul_reply]))
    (Samples.client false)
    (request [Samples.read_request; version_request])
    [Samples.heap] ValueError.
Proof.
  repeat apply conj; try reflexivity.
  apply drains_iff_consume. reflexivity.
Qed.

(** ** Aggregation of the failures *)

(** C2.  The code does not raise the aggregate it was to raise: with
    [raise_exceptions] set and a reply of two entries that both parse and
    both failed, the second with a NUL character in the name of its
    class, the first response is delivered, the second is not, and the
    iteration ends in the [ValueError] of [type], not in an
    [ExceptionGroup] of two. *)
Theorem aggregate_lost_to_value_error :
  parses Samples.runtime Samples.not_found_reply Samples.not_found /\
  parses Samples.runtime Samples.nul_reply Samples.nul_response /\
  failed Samples.not_found = true /\
  failed Samples.nul_response = true /\
  drains Samples.runtime
    (Samples.reply (JArray [Samples.not_found_reply; Samples.nul_reply]))
    (Samples.client true)
    (request [Samples.read_request; version_request])
    [Samples.not_found] ValueError /\
  (forall produced message members,
      ~ drains Samples.runtime
          (Samples.reply (JArray [Samples.not_found_reply; Samples.nul_reply]))
          (Samples.client true)
          (request [Samples.read_request; version_request])
          produced (ExceptionGroup message members)).
Proof.
  repeat apply conj; try reflexivity.
  - apply drains_iff_consume. reflexivity.
  - intros produced message members D. apply drains_iff_consume in D.
    discriminate.
Qed.

(** ** Failures of the transport *)

(** C9. When the POST fails, the first [__anext__] raises the failure of
    the transport and the generator is finished: a consumer receives no
    response at all, whatever the operations and the client. *)
Theorem transport_failure_aborts
  (rt : Runtime) (net : network) (self : JolokiaClient.t)
  (operations : list JolokiaRequest.t) (body : json) (why : string) :
  data operations = Return body ->
  net (_base_url self) (_auth self) body = Failed why ->
  anext rt net self (request operations)
  = (Stop (TransportError why), Finished) /\
  drains rt net self (request operations) [] (TransportError why) /\
  (forall produced e,
      drains rt net self (request operations) produced e ->
      produced = [] /\ e = TransportError why).
Proof.
  intros Hdata Hnet.
  assert (A : anext rt net self (request operations) =
              (Stop (TransportError why), Finished)).
  { simpl. unfold fetch_json. rewrite Hdata. simpl. rewrite Hnet. reflexivity. }
  split; [exact A|]. split.
  - eapply drains_stop. exact A.
  - intros produced e D.
    inversion D as [g g' e0 A' | g g' r rs e0 A' D']; subst;
      rewrite A in A'; inversion A'; subst. split; reflexivity.
Qed.

Lemma transport_failure_aborts_witness :
  drains Samples.runtime Samples.unreachable (Samples.client true)
    (request [version_request; Samples.read_request]) []
    (TransportError "connection refused").
Proof.
  refine (proj1 (proj2 (transport_failure_aborts Samples.runtime
                          Samples.unreachable (Samples.client true)
                          [version_request; Samples.read_request]
                          _ "connection refused" _ _))).
  - reflexivity.
  - reflexivity.
Defined.

(** ** Shape of the reply *)




(** ** What the first step can raise *)

Lemma exclude_none_raises l e :
  JolokiaRequest.exclude_none l = Raised e ->
  exists k, In (k, Some (Raised e)) l.
Proof.
  induction l as [|[k [[v|e']|]] l IH]; simpl; intros H.
  - discriminate.
  - destruct (JolokiaRequest.exclude_none l) eqn:E; simpl in H; [discriminate|].
    inversion H; subst. destruct (IH eq_refl) as [k' Hk]. eauto.
  - inversion H; subst. eauto.
  - destruct (IH H) as [k' Hk]. eauto.
Qed.

Lemma json_exclude_none_raises r e :
  JolokiaRequest.json_exclude_none r = Raised e ->
  (e = ValueError /\ Builtins.encodable (JolokiaRequest.value r) = false) \/
  (e = TypeError /\ JolokiaRequest.arguments r <> None).
Proof.
  unfold JolokiaRequest.json_exclude_none. intros H.
  destruct (JolokiaRequest.exclude_none (JolokiaRequest.fields r)) eqn:E;
    simpl in H; [discriminate|]. inversion H; subst.
  apply exclude_none_raises in E. destruct E as [k Hin].
  unfold JolokiaRequest.fields in Hin. simpl in Hin.
  destruct Hin as [Hin|[Hin|[Hin|[Hin|[Hin|[Hin|[Hin|[]]]]]]]];
    inversion Hin as [[Hk Hv]]; clear Hin.
  - destruct (JolokiaRequest.mbean r); discriminate Hv.
  - destruct (JolokiaRequest.attribute r); discriminate Hv.
  - destruct (JolokiaRequest.path r); discriminate Hv.
  - left. destruct (JolokiaRequest.value r) eqn:V; try discriminate Hv;
      unfold JolokiaRequest.encoded in Hv;
      match type of Hv with
      | context [Builtins.encodable ?v] =>
          destruct (Builtins.encodable v) eqn:C
      end; inversion Hv; split; reflexivity.
  - destruct (JolokiaRequest.operation_name r); discriminate Hv.
  - right. destruct (JolokiaRequest.arguments r); inversion Hv.
    split; [reflexivity|discriminate].
Qed.

Lemma data_raises operations e :
  data operations = Raised e -> e = TypeError \/ e = ValueError.
Proof.
  unfold data. intros H.
  destruct (serialized operations) eqn:S; simpl in H; [discriminate|].
  inversion H; subst. clear H.
  induction operations as [|r rs IH]; simpl in S; [discriminate|].
  destruct (JolokiaRequest.json_exclude_none r) eqn:J; simpl in S.
  - destruct (serialized rs); simpl in S; [discriminate|].
    inversion S; subst. apply IH. reflexivity.
  - inversion S; subst. apply json_exclude_none_raises in J.
    destruct J as [[-> _]|[-> _]]; auto.
Qed.

Lemma fetch_json_raises net self operations e :
  fetch_json net self operations = Raised e ->
  e = TypeError \/ e = ValueError \/ exists why, e = TransportError why.
Proof.
  unfold fetch_json. destruct (data operations) as [body|e'] eqn:D; simpl.
  - destruct (net (_base_url self) (_auth self) body); intros H; inversion H.
    eauto.
  - intros H. inversion H; subst.
    destruct (data_raises _ _ D) as [->| ->]; auto.
Qed.

(** The first step of a fresh generator ends, if it ends, in the failure
    of the serialization or of the transport, in an entry that cannot be
    yielded, or in exhaustion. *)
Lemma first_step_stop rt net self operations e g :
  anext rt net self (request operations) = (Stop e, g) ->
  (exists why, e = TransportError why) \/ entry_error e \/
  e = StopAsyncIteration.
Proof.
  simpl. destruct (fetch_json net self operations) as [body|e'] eqn:F.
  - destruct (as_sequence body) as [|item pending].
    + rewrite resume_nil. unfold ending.
      destruct (_raise self); intros H; inversion H; auto.
    + simpl. destruct (entry rt item []) as [[response excs]|e''] eqn:E;
        intros H; inversion H; subst.
      right. left. eapply entry_raises. exact E.
  - intros H; inversion H; subst.
    destruct (fetch_json_raises _ _ _ _ F) as [->|[->|[why ->]]]; eauto.
    + right. left. left. reflexivity.
    + right. left. unfold entry_error. auto 10.
Qed.

Lemma entry_error_plain e :
  entry_error e ->
  (forall message members, e <> ExceptionGroup message members) /\
  (forall exc, e <> Thrown exc).
Proof.
  unfold entry_error. intros [->|[[f ->]|[->|[->| ->]]]]; split; discriminate.
Qed.

Lemma first_step_independent_of_raise rt net self self' operations :
  _base_url self = _base_url self' ->
  _auth self = _auth self' ->
  fst (anext rt net self (request operations)) =
  fst (anext rt net self' (request operations)).
Proof.
  intros Hu Ha. simpl. unfold fetch_json. rewrite Hu, Ha.
  destruct (data operations) as [body|e]; simpl; [|reflexivity].
  destruct (net (_base_url self') (_auth self') body) as [json_obj|why];
    [|reflexivity].
  destruct (as_sequence json_obj) as [|item pending].
  - rewrite !resume_nil. unfold ending.
    destruct (_raise self), (_raise self'); reflexivity.
  - simpl. destruct (entry rt item []) as [[response excs]|e]; reflexivity.
Qed.

Lemma call_kw_raises {A : Type} (model : dict -> result A) arg e :
  (forall kw e', model kw = Raised e' -> exists fields, e' = ValidationError fields) ->
  call_kw model arg = Raised e ->
  e = TypeError \/ exists fields, e = ValidationError fields.
Proof.
  intros Hm. destruct arg; simpl; intros H;
    try (inversion H; left; reflexivity).
  destruct (bindable members); [|inversion H; left; reflexivity].
  right. eapply Hm. exact H.
Qed.

(** [version], step by step. *)
Lemma version_unfold rt net self :
  version rt net self =
  match fetch_json net self [version_request] with
  | Raised e => Raised e
  | Return json_obj =>
      match as_sequence json_obj with
      | [] => Raised StopAsyncIteration
      | item :: _ =>
          match call_kw (JolokiaResponse.init rt) item with
          | Raised e => Raised e
          | Return response =>
              if JolokiaResponse.status response =? 200
              then call_kw (JolokiaVersion.init rt)
                     (JolokiaResponse.value response)
              else
                match _build_exception response with
                | Return exc => Raised (Thrown exc)
                | Raised e => Raised e
                end
          end
      end
  end.
Proof.
  unfold version. simpl anext.
  destruct (fetch_json net self [version_request]) as [json_obj|e];
    [|reflexivity].
  destruct (as_sequence json_obj) as [|item pending].
  - rewrite resume_nil. unfold ending. destruct (_raise self); reflexivity.
  - simpl. unfold entry.
    destruct (call_kw (JolokiaResponse.init rt) item) as [response|e];
      [|reflexivity].
    simpl.
    destruct (JolokiaResponse.status response =? 200) eqn:S.
    + apply Z.eqb_eq in S.
      destruct (400 <=? JolokiaResponse.status response) eqn:F.
      * apply Z.leb_le in F. lia.
      * simpl. rewrite S. reflexivity.
    + destruct (400 <=? JolokiaResponse.status response).
      * destruct (_build_exception response) eqn:B; simpl;
          [rewrite S, B|]; reflexivity.
      * simpl. rewrite S. destruct (_build_exception response); reflexivity.
Qed.

(** ** The [version] property *)

(** C8. [version] never raises an [ExceptionGroup], whatever the reply
    and whether or not the client was made with [raise_exceptions]: it
    gives what the same client without [raise_exceptions] gives, and a
    synthesized exception it raises is the one built from the response it
    took, whose status is not 200. *)
Theorem version_never_raises_group
  (rt : Runtime) (net : network) (self : JolokiaClient.t) :
  (forall message exceptions,
      version rt net self <> Raised (ExceptionGroup message exceptions)) /\
  version rt net self =
  version rt net (JolokiaClient.init (_base_url self) (_auth self) false) /\
  (forall exc,
      version rt net self = Raised (Thrown exc) ->
      exists response g,
        anext rt net self (request [version_request]) = (Yield response, g) /\
        JolokiaResponse.status response <> 200 /\
        _build_exception response = Return exc).
Proof.
  split; [|split].
  - intros message exceptions. unfold version.
    destruct (anext rt net self (request [version_request]))
      as [[response|e] g] eqn:A; cbn [fst].
    + destruct (JolokiaResponse.status response =? 200).
      * intros H.
        destruct (call_kw_raises _ _ _ (version_init_raises rt) H) as [?|[? ?]];
          discriminate.
      * destruct (_build_exception response) as [exc|e] eqn:B; simpl;
          [discriminate|].
        apply build_exception_raises in B. subst. discriminate.
    + destruct (first_step_stop _ _ _ _ _ _ A) as [[? ->]|[He| ->]];
        try discriminate.
      intros H. inversion H; subst.
      apply (proj1 (entry_error_plain _ He) message exceptions). reflexivity.
  - unfold version.
    rewrite (first_step_independent_of_raise rt net self
               (JolokiaClient.init (_base_url self) (_auth self) false)
               [version_request] eq_refl eq_refl).
    reflexivity.
  - intros exc. unfold version.
    destruct (anext rt net self (request [version_request]))
      as [[response|e] g] eqn:A; cbn [fst].
    + destruct (JolokiaResponse.status response =? 200) eqn:S.
      * intros H.
        destruct (call_kw_raises _ _ _ (version_init_raises rt) H) as [?|[? ?]];
          discriminate.
      * destruct (_build_exception response) as [exc'|e] eqn:B; simpl;
          intros H.
        -- assert (exc' = exc) as -> by (inversion H; reflexivity).
           exists response, g. split; [reflexivity|]. split; [|exact B].
           apply Z.eqb_neq. exact S.
        -- apply build_exception_raises in B. subst. discriminate.
    + destruct (first_step_stop _ _ _ _ _ _ A) as [[? ->]|[He| ->]];
        try discriminate.
      intros H. inversion H; subst.
      exfalso. apply (proj2 (entry_error_plain _ He) exc). reflexivity.
Qed.

(** C6.  The code does not raise the synthesized failure for every
    status other than 200: on a reply whose status is 500 and whose
    [error_type] ends in a name with a NUL character, the entry parses,
    [type] refuses the name, and [version] ends in that [ValueError]
    where the exception synthesized from the response was to be
    raised. *)
Theorem version_value_error :
  parses Samples.runtime Samples.nul_reply Samples.nul_response /\
  JolokiaResponse.status Samples.nul_response <> 200 /\
  _build_exception Samples.nul_response = Raised ValueError /\
  version Samples.runtime (Samples.reply Samples.nul_reply) (Samples.client false)
  = Raised ValueError /\
  (forall exc,
      version Samples.runtime (Samples.reply Samples.nul_reply)
        (Samples.client false) <> Raised (Thrown exc)).
Proof.
  repeat apply conj; try reflexivity; discriminate.
Qed.

(** ** Synthesized exceptions *)

Lemma build_exception_class response exc :
  _build_exception response = Return exc ->
  exists name, exc_class exc = TypeNew name [JavaException].
Proof.
  unfold _build_exception, type_.
  match goal with
  | |- context [Str.unnameable ?name] => destruct (Str.unnameable name)
  end; simpl; [discriminate|].
  intros H. inversion H; subst; clear H.
  destruct (JolokiaResponse.error response) as [er|];
    destruct (JolokiaResponse.stacktrace response) as [st|];
    repeat match goal with
           | |- context [if ?b then _ else _] => destruct b
           end;
    eexists; reflexivity.
Qed.

Lemma build_exception_instance response exc :
  _build_exception response = Return exc ->
  isinstance exc JavaException = true /\ isinstance exc Exception_ = true /\
  isinstance exc RuntimeError_ = false.
Proof.
  intros H. destruct (build_exception_class _ _ H) as [name Hc].
  unfold isinstance. rewrite Hc. repeat split.
Qed.

Lemma entry_group rt item exceptions response exceptions' :
  entry rt item exceptions = Return (response, exceptions') ->
  Forall (fun e => isinstance e JavaException = true) exceptions ->
  Forall (fun e => isinstance e JavaException = true) exceptions'.
Proof.
  unfold entry.
  destruct (call_kw (JolokiaResponse.init rt) item) as [r|e]; simpl;
    [|discriminate].
  destruct (400 <=? JolokiaResponse.status r).
  - destruct (_build_exception r) as [exc|e] eqn:B; simpl; [|discriminate].
    intros H F. inversion H; subst. apply Forall_app. split; [exact F|].
    constructor; [|constructor]. apply (build_exception_instance _ _ B).
  - intros H F. inversion H; subst. exact F.
Qed.

Lemma iterate_group rt self pending :
  forall exceptions,
    Forall (fun e => isinstance e JavaException = true) exceptions ->
    Forall (fun e => isinstance e JavaException = true)
      (group_members (snd (iterate rt self pending exceptions))).
Proof.
  induction pending as [|item pending IH]; intros exceptions F.
  - simpl. destruct (_raise self), exceptions; simpl; auto.
  - simpl. destruct (entry rt item exceptions) as [[response exceptions']|e] eqn:E.
    + specialize (IH exceptions' (entry_group _ _ _ _ _ E F)).
      destruct (iterate rt self pending exceptions') as [rs e'].
      exact IH.
    + simpl. apply entry_raises in E.
      destruct E as [->|[[f ->]|[->|[->| ->]]]]; constructor.
Qed.

(** C10. Whatever the response, the exception synthesized from it is an
    instance of [JavaException]: its class is made with [JavaException] as
    its base.  The same holds of every member of the [ExceptionGroup] that
    ends an iteration over [request]. *)
Theorem synthesized_is_JavaException :
  (forall (response : JolokiaResponse.t) (exc : exception),
      _build_exception response = Return exc ->
      isinstance exc JavaException = true /\
      isinstance exc Exception_ = true) /\
  (forall (rt : Runtime) (net : network) (self : JolokiaClient.t)
          (operations : list JolokiaRequest.t),
      Forall (fun e => isinstance e JavaException = true)
        (group_members (snd (consume rt net self (request operations))))).
Proof.
  split.
  - intros response exc H.
    destruct (build_exception_instance _ _ H) as [H1 [H2 _]]. split; assumption.
  - intros rt net self operations. simpl.
    destruct (fetch_json net self operations) as [json_obj|e] eqn:E.
    + apply iterate_group. constructor.
    + simpl. destruct (fetch_json_raises _ _ _ _ E) as [->|[->|[why ->]]];
        constructor.
Qed.

(** ** Serialization of a request *)

(** C5.  The code does not serialize every request: the iterator that an
    EXEC request holds under [arguments] is not JSON serializable, so
    that [json(exclude_none=True)] raises a [TypeError] instead of writing
    the field, and [fetch_json] raises it before anything is posted,
    also when the request comes after one that can be serialized. *)
Theorem exec_arguments_not_serialized :
  JolokiaRequest.arguments Samples.exec_request = Some [JString "full"] /\
  JolokiaRequest.json_exclude_none Samples.exec_request = Raised TypeError /\
  (forall (net : network) (self : JolokiaClient.t),
      fetch_json net self [Samples.exec_request] = Raised TypeError /\
      fetch_json net self [Samples.read_request; Samples.exec_request]
      = Raised TypeError) /\
  (forall (rt : Runtime) (net : network) (self : JolokiaClient.t),
      consume rt net self (request [Samples.exec_request]) = ([], TypeError)).
Proof.
  repeat apply conj; try reflexivity.
  - intros net self. split; reflexivity.
Qed.
(** ** Cutting a string at a separator *)

Lemma split_fields_skip sep s :
  forall k, Str.split_fields sep k s = Str.split_fields sep 0 (drop k s).
Proof.
  induction s as [|c s IH]; intros k.
  - destruct k; reflexivity.
  - destruct k as [|k]; [reflexivity|]. simpl drop.
    change (Str.split_fields sep (S k) (String c s))
      with (Str.split_fields sep k s).
    apply IH.
Qed.

Lemma drop_length_le k s :
  (String.length (drop k s) <= String.length s)%nat.
Proof.
  revert k. induction s as [|c s IH]; intros k.
  - destruct k; simpl; lia.
  - destruct k as [|k]; simpl; [lia|]. specialize (IH k). lia.
Qed.

Lemma split_cons sep c s :
  Str.split sep (String c s) =
  if String.prefix sep (String c s)
  then EmptyString :: Str.split sep (drop (String.length sep - 1) s)
  else match Str.split sep s with
       | f :: fs => String c f :: fs
       | [] => [String c EmptyString]
       end.
Proof.
  unfold Str.split. cbn [Str.split_fields].
  destruct (String.prefix sep (String c s)).
  - rewrite split_fields_skip.
    destruct (Str.split_fields sep 0 (drop (String.length sep - 1) s)).
    reflexivity.
  - destruct (Str.split_fields sep 0 s). reflexivity.
Qed.

Lemma split_not_nil sep s : Str.split sep s <> [].
Proof.
  unfold Str.split. destruct (Str.split_fields sep 0 s). discriminate.
Qed.

Lemma join_cons sep c f fs :
  Str.join sep (String c f :: fs) = String c (Str.join sep (f :: fs)).
Proof.
  unfold Str.join. destruct fs; reflexivity.
Qed.

Lemma prefix_drop sep s :
  String.prefix sep s = true -> s = (sep ++ drop (String.length sep) s)%string.
Proof.
  revert s. induction sep as [|a sep IH]; intros s H.
  - destruct s; reflexivity.
  - destruct s as [|b s]; [discriminate|]. simpl in H.
    destruct (ascii_dec a b) as [->|]; [|discriminate].
    simpl. f_equal. apply IH. exact H.
Qed.

(** Joining what [split] gives restores the string. *)
Lemma join_split sep s :
  sep <> EmptyString -> Str.join sep (Str.split sep s) = s.
Proof.
  intros Hsep.
  remember (String.length s) as n eqn:Hn.
  revert s Hn. induction n as [n IH] using lt_wf_ind. intros s Hn.
  destruct s as [|c s].
  - reflexivity.
  - rewrite split_cons.
    destruct (String.prefix sep (String c s)) eqn:P.
    + destruct sep as [|a sep]; [contradiction|].
      pose proof (prefix_drop _ _ P) as Hs.
      simpl in Hs. injection Hs as Ha Hs.
      replace (String.length (String a sep) - 1)%nat with (String.length sep)
        by (simpl; lia).
      pose proof (drop_length_le (String.length sep) s) as Hle.
      specialize (IH (String.length (drop (String.length sep) s))
                     ltac:(simpl in Hn; lia) _ eq_refl).
      pose proof (split_not_nil (String a sep) (drop (String.length sep) s)) as Hnn.
      destruct (Str.split (String a sep) (drop (String.length sep) s))
        as [|f fs] eqn:E; [contradiction|].
      change (Str.join (String a sep) (EmptyString :: f :: fs))
        with (String a sep ++ Str.join (String a sep) (f :: fs))%string.
      rewrite IH. simpl. rewrite Ha. f_equal. symmetry. exact Hs.
    + specialize (IH (String.length s) ltac:(simpl in Hn; lia) s eq_refl).
      pose proof (split_not_nil sep s) as Hnn.
      destruct (Str.split sep s) as [|f fs]; [contradiction|].
      rewrite join_cons, IH. reflexivity.
Qed.

(** [split] cuts at the first occurrence and goes on in the rest. *)
Lemma split_partition sep s :
  sep <> EmptyString ->
  Str.split sep s =
  match partition sep s with
  | Some (before, after) => before :: Str.split sep after
  | None => [s]
  end.
Proof.
  intros Hsep. induction s as [|c s IH].
  - reflexivity.
  - rewrite split_cons. cbn [partition].
    destruct (String.prefix sep (String c s)) eqn:P.
    + destruct sep as [|a sep]; [contradiction|].
      replace (String.length (String a sep) - 1)%nat with (String.length sep)
        by (simpl; lia).
      reflexivity.
    + rewrite IH. destruct (partition sep s) as [[before after]|]; reflexivity.
Qed.

(** The message [_build_exception] computes out of a non-empty [error]:
    the text after the first [": "], and nothing when there is none. *)
Lemma message_after_separator error :
  Str.join ": " (tl (Str.split ": " error)) =
  match partition ": " error with
  | Some (_, after) => after
  | None => EmptyString
  end.
Proof.
  rewrite split_partition by discriminate.
  destruct (partition ": " error) as [[before after]|].
  - simpl tl. apply join_split. discriminate.
  - reflexivity.
Qed.

Lemma prefix_char c x s :
  String.prefix (String c EmptyString) (String x s) = Ascii.eqb x c.
Proof.
  simpl. destruct (ascii_dec c x) as [->|Hne].
  - rewrite Ascii.eqb_refl. destruct s; reflexivity.
  - symmetry. apply Ascii.eqb_neq. congruence.
Qed.

Lemma split_char_fields c s :
  if Str.occurs c s
  then exists f g fs, Str.split (String c EmptyString) s = f :: g :: fs
  else Str.split (String c EmptyString) s = [s].
Proof.
  induction s as [|x s IH].
  - reflexivity.
  - rewrite split_cons, prefix_char. simpl Str.occurs. simpl drop.
    destruct (Ascii.eqb x c); simpl orb.
    + pose proof (split_not_nil (String c EmptyString) s) as Hnn.
      destruct (Str.split (String c EmptyString) s) as [|f fs];
        [contradiction|]. eauto.
    + destruct (Str.occurs c s).
      * destruct IH as [f [g [fs ->]]]. eauto.
      * rewrite IH. reflexivity.
Qed.

(** The last field of [s.split(c)] is the text after the last [c]. *)
Lemma last_split_char c s :
  last (Str.split (String c EmptyString) s) EmptyString = after_last c s.
Proof.
  induction s as [|x s IH].
  - reflexivity.
  - pose proof (split_char_fields c s) as Hf.
    rewrite split_cons, prefix_char. simpl drop. cbn [after_last].
    destruct (Ascii.eqb x c).
    + destruct (Str.occurs c s).
      * destruct Hf as [f [g [fs E]]]. rewrite E in *. exact IH.
      * rewrite Hf. reflexivity.
    + destruct (Str.occurs c s).
      * destruct Hf as [f [g [fs E]]]. rewrite E in *. exact IH.
      * rewrite Hf. reflexivity.
Qed.

Lemma occurs_after_last c s : Str.occurs c (after_last c s) = false.
Proof.
  induction s as [|x s IH]; [reflexivity|].
  cbn [after_last]. destruct (Str.occurs c s) eqn:O; [exact IH|].
  destruct (Ascii.eqb x c) eqn:E; [exact O|].
  simpl. rewrite E, O. reflexivity.
Qed.

(** What [_build_exception] does, field by field: the class is named by
    the text after the last dot of a non-empty [error_type] and by
    [Throwable] otherwise, and [type] refuses a name it cannot take; the
    only argument is the non-empty text after the first [": "] of
    [error]; the only note is a non-empty [stacktrace]. *)
Lemma build_exception_characterised (response : JolokiaResponse.t) :
  _build_exception response =
  if Str.unnameable (synthesized_name response)
  then Raised ValueError
  else Return
    {| exc_class := TypeNew (synthesized_name response) [JavaException];
       exc_args :=
         match JolokiaResponse.error response with
         | Some error =>
             match partition ": " error with
             | Some (_, after) => if Str.truthy after then [after] else []
             | None => []
             end
         | None => []
         end;
       exc_notes :=
         match JolokiaResponse.stacktrace response with
         | Some stacktrace => if Str.truthy stacktrace then [stacktrace] else []
         | None => []
         end |}.
Proof.
  unfold _build_exception, synthesized_name, type_.
  assert (Hname :
    match JolokiaResponse.error_type response with
    | Some error_type =>
        if Str.truthy error_type
        then last (Str.split "." error_type) EmptyString
        else "Throwable"
    | None => "Throwable"
    end =
    match JolokiaResponse.error_type response with
    | Some error_type =>
        if Str.truthy error_type then after_last "." error_type
        else "Throwable"
    | None => "Throwable"
    end).
  { destruct (JolokiaResponse.error_type response) as [et|]; [|reflexivity].
    rewrite (last_split_char "." et). reflexivity. }
  rewrite Hname. clear Hname.
  match goal with
  | |- context [Str.unnameable ?name] => destruct (Str.unnameable name)
  end; [reflexivity|].
  cbn [bind]. f_equal.
  destruct (JolokiaResponse.error response) as [er|];
    destruct (JolokiaResponse.stacktrace response) as [st|];
    try rewrite message_after_separator;
    repeat match goal with
           | |- context [Str.truthy ?x] => destruct (Str.truthy x) eqn:?
           | |- context [partition ": " ?x] =>
               destruct (partition ": " x) as [[? ?]|] eqn:?
           end;
    try reflexivity; try discriminate.
  all: try match goal with
       | H : Str.truthy ?x = false, P : partition _ ?x = Some _ |- _ =>
           destruct x; discriminate
       end.
Qed.

(** C3 at a failed response whose [error] holds no [": "]: the class is
    named after the last dot of [error_type], but the exception is made
    without any argument; the text of [error] is lost, where it was to be
    kept whole. *)
Theorem build_exception_plain_error :
  let response :=
    Samples.response 500 JNull (Some "java.lang.IllegalStateException")
      (Some "boom") in
  partition ": " "boom" = None /\
  Str.split ": " "boom" = ["boom"] /\
  exists exc,
    _build_exception response = Return exc /\
    class_name (exc_class exc) = "IllegalStateException" /\
    exc_args exc = [] /\
    exc_args exc <> ["boom"].
Proof.
  cbv zeta. split; [reflexivity|]. split; [reflexivity|].
  eexists. split; [reflexivity|]. repeat apply conj; try reflexivity.
  discriminate.
Qed.

(** ** Validation of [status] *)

(** *** [int] on the decimal literal of an integer *)














(** *** What an accepted literal is made of *)








(** *** [int] on a [float] *)


(** *** The field [status] *)





(** * Further properties of the models and of the client *)

(** ** Operations and requests *)

(** X1. An operation and its wire name determine each other: looking the
    value of a member up gives that member back, and a name that is found
    is the value of the member found. *)
Theorem Operation_round_trip :
  (forall op, Operation_of_value (Operation_value op) = Some op) /\
  (forall name op,
      Operation_of_value name = Some op -> Operation_value op = name) /\
  (forall op op', Operation_value op = Operation_value op' -> op = op').
Proof.
  assert (R : forall op, Operation_of_value (Operation_value op) = Some op)
    by (intros []; reflexivity).
  split; [exact R|]. split.
  - intros name op H. unfold Operation_of_value in H.
    apply find_some in H. destruct H as [_ H].
    apply String.eqb_eq. exact H.
  - intros op op' H. pose proof (R op) as E. rewrite H, R in E.
    inversion E. reflexivity.
Qed.

Lemma enum_validator_value op :
  enum_validator (JString (Operation_value op)) = Some op.
Proof. destruct op; reflexivity. Qed.

Lemma enum_validator_some v op :
  enum_validator v = Some op -> v = JString (Operation_value op).
Proof.
  destruct v; simpl; try discriminate. intros H. f_equal. symmetry.
  unfold Operation_of_value in H. apply find_some in H. destruct H as [_ H].
  apply String.eqb_eq. exact H.
Qed.

Lemma request_type_in_report rt kw :
  (exists fields,
      JolokiaRequest.init rt kw = Raised (ValidationError fields) /\
      In "type" fields) <->
  required enum_validator (dict_get "type" kw) = None.
Proof.
  unfold JolokiaRequest.init. split.
  - intros [fields [H Hin]]. revert H Hin.
    destruct (required enum_validator (dict_get "type" kw)) as [ty|];
      [|reflexivity].
    field_cases; intros H; inversion H; subst; clear H; intros Hin;
      repeat match type of Hin with
             | context [rejected _ ?checked] =>
                 lazymatch checked with
                 | Some _ => fail
                 | None => fail
                 | _ => destruct checked
                 end
             end;
      simpl in Hin;
      repeat (destruct Hin as [Hin|Hin]; [discriminate Hin|]); destruct Hin.
  - intros ->. field_cases; eexists; (split; [reflexivity|]); simpl; auto.
Qed.

(** X2. A request is rejected with a report that names [type] exactly
    when the keyword [type] is missing or is not the wire name of one of
    the six operations; a request that is accepted has the operation whose
    wire name was given. *)
Theorem request_type_validation (rt : Runtime) (kw : dict) :
  ((exists fields,
       JolokiaRequest.init rt kw = Raised (ValidationError fields) /\
       In "type" fields) <->
   (forall op, dict_get "type" kw <> Some (JString (Operation_value op)))) /\
  (forall r,
      JolokiaRequest.init rt kw = Return r ->
      dict_get "type" kw =
      Some (JString (Operation_value (JolokiaRequest.type r)))).
Proof.
  split.
  - rewrite request_type_in_report. unfold required.
    destruct (dict_get "type" kw) as [v|].
    + split.
      * intros H op E. inversion E; subst.
        rewrite enum_validator_value in H. discriminate.
      * intros H. destruct (enum_validator v) as [op|] eqn:E; [|reflexivity].
        apply enum_validator_some in E. subst. exfalso. apply (H op). reflexivity.
    + split; [discriminate|reflexivity].
  - intros r. unfold JolokiaRequest.init, required.
    destruct (dict_get "type" kw) as [v|].
    + destruct (enum_validator v) as [op|] eqn:E.
      * field_cases; intros H; inversion H; subst; clear H.
        apply enum_validator_some in E. subst. reflexivity.
      * field_cases; discriminate.
    + field_cases; discriminate.
Qed.


(** ** The generator on replies of every shape *)

Lemma entry_inv rt item exceptions response exceptions' :
  entry rt item exceptions = Return (response, exceptions') ->
  parses rt item response /\
  exists built,
    Forall2 synthesizes (filter failed [response]) built /\
    exceptions' = (exceptions ++ built)%list.
Proof.
  unfold entry, parses.
  destruct (call_kw (JolokiaResponse.init rt) item) as [r|e]; simpl;
    [|discriminate].
  fold (failed r). destruct (failed r) eqn:Fr.
  - destruct (_build_exception r) as [exc|e] eqn:B; simpl; [|discriminate].
    intros H. inversion H; subst. split; [reflexivity|].
    exists [exc]. rewrite Fr. split; [|reflexivity].
    constructor; [exact B|constructor].
  - intros H. inversion H; subst. split; [reflexivity|].
    exists []. rewrite Fr, app_nil_r. split; [constructor|reflexivity].
Qed.

(** The two ways in which an entry ends the loop before its [yield]. *)
Lemma entry_raised rt item exceptions e :
  entry rt item exceptions = Raised e <->
  call_kw (JolokiaResponse.init rt) item = Raised e \/
  exists response,
    parses rt item response /\ failed response = true /\
    _build_exception response = Raised e.
Proof.
  unfold entry, parses.
  destruct (call_kw (JolokiaResponse.init rt) item) as [r|e0]; simpl.
  - fold (failed r). destruct (failed r) eqn:Fr.
    + destruct (_build_exception r) as [exc|e1] eqn:B; simpl; split.
      * discriminate.
      * intros [H|[r' [H [_ H']]]]; [discriminate|].
        inversion H; subst. rewrite B in H'. discriminate.
      * intros H. inversion H; subst. right. exists r. auto.
      * intros [H|[r' [H [_ H']]]]; [discriminate|].
        inversion H; subst. rewrite B in H'. inversion H'. reflexivity.
    + split; [discriminate|].
      intros [H|[r' [H [H' _]]]]; [discriminate|].
      inversion H; subst. rewrite Fr in H'. discriminate.
  - split.
    + intros H. inversion H. left. reflexivity.
    + intros [H|[r' [H _]]]; [inversion H; reflexivity|discriminate].
Qed.

Lemma iterate_stopped rt self good :
  forall responses built bad rest e exceptions,
    Forall2 (parses rt) good responses ->
    Forall2 synthesizes (filter failed responses) built ->
    entry rt bad (exceptions ++ built) = Raised e ->
    iterate rt self (good ++ bad :: rest) exceptions = (responses, e).
Proof.
  induction good as [|item good IH];
    intros responses built bad rest e exceptions F S Hb;
    inversion F as [|item' r good' rs P F']; subst.
  - simpl in S. inversion S; subst. rewrite app_nil_r in Hb.
    simpl. rewrite Hb. reflexivity.
  - simpl in S. simpl app. simpl iterate. destruct (failed r) eqn:Fr.
    + inversion S as [|r' exc l built' Sr S']; subst.
      rewrite (entry_parsed rt item r exceptions P [exc])
        by (simpl; rewrite Fr; constructor; [exact Sr|constructor]).
      rewrite (IH rs built' bad rest e (exceptions ++ [exc])%list F' S')
        by (rewrite <- app_assoc; exact Hb).
      reflexivity.
    + rewrite (entry_parsed rt item r exceptions P [])
        by (simpl; rewrite Fr; constructor).
      rewrite app_nil_r.
      rewrite (IH rs built bad rest e exceptions F' S Hb). reflexivity.
Qed.

(** X6. When an entry of the reply cannot be yielded, because it does
    not parse or because it parses into a failed response whose exception
    cannot be built, the responses of the entries before it are still
    delivered, in order; the iteration then ends in the error of that
    entry, which is a [TypeError], a validation error, the
    [OverflowError] or the [OSError] of a timestamp, or the [ValueError]
    of a class name, and the entries after it are never looked at.  The
    failures collected up to there are not reported: no [ExceptionGroup]
    is raised, with or without [raise_exceptions]. *)
Theorem request_stops_at_malformed_entry
  (rt : Runtime) (net : network) (self : JolokiaClient.t)
  (operations : list JolokiaRequest.t) (json_obj : json)
  (good : list json) (bad : json) (rest : list json)
  (responses : list JolokiaResponse.t) (built : list exception) (e : raised) :
  fetch_json net self operations = Return json_obj ->
  as_sequence json_obj = (good ++ bad :: rest)%list ->
  Forall2 (parses rt) good responses ->
  Forall2 synthesizes (filter failed responses) built ->
  call_kw (JolokiaResponse.init rt) bad = Raised e \/
  (exists response,
      parses rt bad response /\ failed response = true /\
      _build_exception response = Raised e) ->
  drains rt net self (request operations) responses e /\
  (e = TypeError \/ (exists fields, e = ValidationError fields) \/
   e = OverflowError \/ e = OSError \/ e = ValueError) /\
  (forall produced message exceptions,
      ~ drains rt net self (request operations) produced
          (ExceptionGroup message exceptions)).
Proof.
  intros Hfetch Hseq Hgood Hbuilt Hbad.
  assert (Hentry : entry rt bad ([] ++ built) = Raised e)
    by (apply entry_raised; exact Hbad).
  assert (Hc : consume rt net self (request operations) = (responses, e)).
  { simpl. rewrite Hfetch, Hseq.
    apply (iterate_stopped rt self good responses built); assumption. }
  pose proof (entry_raises _ _ _ _ Hentry) as He.
  split; [apply drains_iff_consume; exact Hc|]. split; [exact He|].
  intros produced message exceptions D. apply drains_iff_consume in D.
  rewrite Hc in D. inversion D; subst.
  apply (proj1 (entry_error_plain _ He) message exceptions). reflexivity.
Qed.

Lemma request_stops_at_malformed_entry_witness :
  drains Samples.runtime
    (Samples.reply (JArray [Samples.not_found_reply; JObject []; Samples.heap_reply]))
    (Samples.client true) (request [version_request])
    [Samples.not_found] (ValidationError ["status"]).
Proof.
  refine (proj1 (request_stops_at_malformed_entry Samples.runtime
                   (Samples.reply
                      (JArray [Samples.not_found_reply; JObject []; Samples.heap_reply]))
                   (Samples.client true) [version_request]
                   (JArray [Samples.not_found_reply; JObject []; Samples.heap_reply])
                   [Samples.not_found_reply] (JObject []) [Samples.heap_reply]
                   [Samples.not_found] [Samples.not_found_exception]
                   (ValidationError ["status"]) _ _ _ _ _)).
  - reflexivity.
  - reflexivity.
  - repeat constructor.
  - repeat constructor.
  - left. reflexivity.
Defined.

Lemma iterate_quiet rt self self' pending :
  _raise self' = false ->
  forall exceptions,
    fst (iterate rt self pending exceptions)
    = fst (iterate rt self' pending exceptions) /\
    (snd (iterate rt self pending exceptions)
     = snd (iterate rt self' pending exceptions) \/
     exists members,
       members <> [] /\
       snd (iterate rt self pending exceptions) =
         ExceptionGroup "JolokiaException" members /\
       snd (iterate rt self' pending exceptions) = StopAsyncIteration).
Proof.
  intros Hq. induction pending as [|item pending IH]; intros exceptions.
  - simpl. rewrite Hq. destruct (_raise self), exceptions as [|x l]; simpl;
      split; auto.
    right. exists (x :: l). repeat split. discriminate.
  - simpl. destruct (entry rt item exceptions) as [[response exceptions']|e].
    + specialize (IH exceptions').
      destruct (iterate rt self pending exceptions') as [rs e'];
        destruct (iterate rt self' pending exceptions') as [rs' e''].
      simpl in *. destruct IH as [-> IH]. split; [reflexivity|exact IH].
    + simpl. split; auto.
Qed.

Lemma iterate_no_group rt self pending :
  _raise self = false ->
  forall exceptions message members,
    snd (iterate rt self pending exceptions) <> ExceptionGroup message members.
Proof.
  intros Hq. induction pending as [|item pending IH];
    intros exceptions message members.
  - simpl. rewrite Hq. discriminate.
  - simpl. destruct (entry rt item exceptions) as [[response exceptions']|e] eqn:E.
    + specialize (IH exceptions' message members).
      destruct (iterate rt self pending exceptions') as [rs e']. exact IH.
    + simpl. apply (proj1 (entry_error_plain _ (entry_raises _ _ _ _ E))).
Qed.

(** X7. [raise_exceptions] changes nothing of what a consumer receives:
    the responses are those the same client without the flag yields.  It
    can only change the ending, and only from a normal end into the
    aggregate; without the flag no [ExceptionGroup] is ever raised. *)
Theorem raise_only_changes_the_ending
  (rt : Runtime) (net : network) (self : JolokiaClient.t)
  (operations : list JolokiaRequest.t) :
  let quiet := JolokiaClient.init (_base_url self) (_auth self) false in
  fst (consume rt net self (request operations)) =
  fst (consume rt net quiet (request operations)) /\
  (snd (consume rt net self (request operations)) =
   snd (consume rt net quiet (request operations)) \/
   exists members,
     members <> [] /\
     snd (consume rt net self (request operations)) =
       ExceptionGroup "JolokiaException" members /\
     snd (consume rt net quiet (request operations)) = StopAsyncIteration) /\
  (forall message members,
      snd (consume rt net quiet (request operations)) <>
      ExceptionGroup message members).
Proof.
  intros quiet.
  assert (Hf : fetch_json net quiet operations = fetch_json net self operations)
    by reflexivity.
  simpl consume. rewrite Hf.
  destruct (fetch_json net self operations) as [json_obj|e] eqn:E.
  - destruct (iterate_quiet rt self quiet (as_sequence json_obj) eq_refl [])
      as [H1 H2].
    split; [exact H1|]. split; [exact H2|].
    intros message members. apply iterate_no_group. reflexivity.
  - simpl. split; [reflexivity|]. split; [left; reflexivity|].
    intros message members ->.
    destruct (fetch_json_raises _ _ _ _ E) as [?|[?|[? ?]]]; discriminate.
Qed.

Lemma chars_cons c s : exists ch rest, Str.chars (String c s) = ch :: rest.
Proof.
  cbn [Str.chars]. destruct (Str.continued s); [|eauto].
  destruct (Str.chars s); eauto.
Qed.

(** X8. Replies that hold no entry, or no object: an empty array and an
    empty string end the iteration at once and normally, whatever the
    flag; [null], a boolean, a number and a non-empty string give a
    [TypeError] at the first step.  In neither case is a response
    delivered. *)
Theorem request_on_degenerate_reply
  (rt : Runtime) (net : network) (self : JolokiaClient.t)
  (operations : list JolokiaRequest.t) (json_obj : json) :
  fetch_json net self operations = Return json_obj ->
  (json_obj = JArray [] \/ json_obj = JString EmptyString ->
   consume rt net self (request operations) = ([], StopAsyncIteration)) /\
  ((forall kw, json_obj <> JObject kw) ->
   (forall items, json_obj <> JArray items) ->
   json_obj <> JString EmptyString ->
   consume rt net self (request operations) = ([], TypeError)).
Proof.
  intros Hfetch. simpl consume. rewrite Hfetch. split.
  - intros [->| ->]; simpl; destruct (_raise self); reflexivity.
  - intros Ho Ha Hs.
    destruct json_obj as [| b | n | f | s | items | kw]; try reflexivity.
    + destruct s as [|c s]; [contradiction|].
      cbn [as_sequence]. destruct (chars_cons c s) as [ch [rest ->]].
      reflexivity.
    + exfalso. apply (Ha items). reflexivity.
    + exfalso. apply (Ho kw). reflexivity.
Qed.

Lemma request_on_degenerate_reply_witness :
  consume Samples.runtime (Samples.reply JNull) (Samples.client true)
    (request [version_request])
  = ([], TypeError).
Proof.
  refine (proj2 (request_on_degenerate_reply Samples.runtime
                   (Samples.reply JNull)
                   (Samples.client true) [version_request] JNull _) _ _ _).
  - reflexivity.
  - discriminate.
  - discriminate.
  - discriminate.
Defined.

(** ** Order and aggregation, when every exception is built *)

(** X21. When the reply to [n] requests is an array of [n] entries, each
    of which parses into a response, and the exception of every failed
    response is built, a consumer of [request] receives exactly those [n]
    responses and in the order of the entries: the i-th response it
    receives is the one parsed from the i-th entry.  Nothing is sorted or
    dropped on the way. *)
Theorem request_preserves_order
  (rt : Runtime) (net : network) (self : JolokiaClient.t)
  (operations : list JolokiaRequest.t)
  (entries : list json) (responses : list JolokiaResponse.t)
  (built : list exception) :
  fetch_json net self operations = Return (JArray entries) ->
  List.length entries = List.length operations ->
  Forall2 (parses rt) entries responses ->
  Forall2 synthesizes (filter failed responses) built ->
  drains rt net self (request operations) responses (ending self built) /\
  List.length responses = List.length operations /\
  (forall i item,
      nth_error entries i = Some item ->
      exists response,
        nth_error responses i = Some response /\ parses rt item response) /\
  (forall produced e,
      drains rt net self (request operations) produced e ->
      produced = responses).
Proof.
  intros Hfetch Hlen Hparse Hbuilt.
  assert (Hc : consume rt net self (request operations) =
               (responses, ending self built)).
  { simpl. rewrite Hfetch. simpl.
    rewrite (iterate_parsed rt self entries responses [] built Hparse Hbuilt).
    reflexivity. }
  repeat apply conj.
  - apply drains_iff_consume. exact Hc.
  - rewrite <- Hlen. symmetry. eapply Forall2_length; eassumption.
  - clear Hfetch Hlen Hc Hbuilt.
    induction Hparse as [|x r xs rs P F IH]; intros i item Hi.
    + destruct i; discriminate.
    + destruct i as [|i]; simpl in *.
      * inversion Hi; subst. eauto.
      * eauto.
  - intros produced e D. apply drains_iff_consume in D.
    rewrite Hc in D. inversion D. reflexivity.
Qed.

Lemma request_preserves_order_witness :
  drains Samples.runtime
    (Samples.reply (JArray [Samples.not_found_reply; Samples.heap_reply]))
    (Samples.client false)
    (request [version_request; Samples.read_request])
    [Samples.not_found; Samples.heap] StopAsyncIteration.
Proof.
  refine (proj1 (request_preserves_order Samples.runtime
                   (Samples.reply (JArray [Samples.not_found_reply; Samples.heap_reply]))
                   (Samples.client false)
                   [version_request; Samples.read_request]
                   [Samples.not_found_reply; Samples.heap_reply]
                   [Samples.not_found; Samples.heap]
                   [Samples.not_found_exception] _ _ _ _)).
  - reflexivity.
  - reflexivity.
  - repeat constructor.
  - repeat constructor.
Defined.

(** X22. Let the reply hold [n] entries that parse into responses, [k]
    of them with a status of 400 or more, and let the exception of each of
    these be built.  A consumer first receives all [n] responses.  With
    [raise_exceptions] set and [k > 0] the iteration then ends in one
    [ExceptionGroup] whose members are the [k] exceptions built from the
    failed responses, in their order; with [raise_exceptions] unset, or
    with [k = 0], it ends without an aggregate. *)
Theorem aggregate_failure_count
  (rt : Runtime) (net : network) (self : JolokiaClient.t)
  (operations : list JolokiaRequest.t) (json_obj : json)
  (responses : list JolokiaResponse.t) (failures : list exception) :
  fetch_json net self operations = Return json_obj ->
  Forall2 (parses rt) (as_sequence json_obj) responses ->
  Forall2 synthesizes (filter failed responses) failures ->
  let k := List.length (filter failed responses) in
  List.length failures = k /\
  (_raise self = true -> (0 < k)%nat ->
   drains rt net self (request operations) responses
     (ExceptionGroup "JolokiaException" failures)) /\
  (_raise self = false \/ k = 0%nat ->
   drains rt net self (request operations) responses StopAsyncIteration /\
   forall produced message exceptions,
     ~ drains rt net self (request operations) produced
         (ExceptionGroup message exceptions)).
Proof.
  intros Hfetch Hparse Hbuilt k.
  assert (Hc : consume rt net self (request operations) =
               (responses, ending self failures)).
  { simpl. rewrite Hfetch. simpl.
    rewrite (iterate_parsed rt self _ responses [] failures Hparse Hbuilt).
    reflexivity. }
  assert (Hk : List.length failures = k)
    by (symmetry; eapply Forall2_length; eassumption).
  split; [exact Hk|]. split.
  - intros Hraise Hpos. apply drains_iff_consume. rewrite Hc.
    unfold ending. rewrite Hraise.
    destruct failures; simpl in *; [lia|reflexivity].
  - intros Hno.
    assert (He : ending self failures = StopAsyncIteration).
    { unfold ending. destruct Hno as [Hr|Hz].
      - rewrite Hr. reflexivity.
      - destruct failures; [|simpl in Hk; lia].
        destruct (_raise self); reflexivity. }
    split.
    + apply drains_iff_consume. rewrite Hc, He. reflexivity.
    + intros produced message exceptions D. apply drains_iff_consume in D.
      rewrite Hc, He in D. discriminate.
Qed.

Lemma aggregate_failure_count_witness :
  drains Samples.runtime
    (Samples.reply (JArray [Samples.not_found_reply; Samples.heap_reply]))
    (Samples.client true)
    (request [version_request; Samples.read_request])
    [Samples.not_found; Samples.heap]
    (ExceptionGroup "JolokiaException" [Samples.not_found_exception]).
Proof.
  refine (proj1 (proj2 (aggregate_failure_count Samples.runtime
                   (Samples.reply (JArray [Samples.not_found_reply; Samples.heap_reply]))
                   (Samples.client true)
                   [version_request; Samples.read_request]
                   (JArray [Samples.not_found_reply; Samples.heap_reply])
                   [Samples.not_found; Samples.heap]
                   [Samples.not_found_exception] _ _ _)) _ _).
  - reflexivity.
  - repeat constructor.
  - repeat constructor.
  - reflexivity.
  - simpl. lia.
Defined.

(** ** When an aggregate is raised *)

Lemma iterate_group_inv rt self pending :
  forall exceptions message members,
    snd (iterate rt self pending exceptions) = ExceptionGroup message members ->
    message = "JolokiaException" /\
    _raise self = true /\
    members <> [] /\
    Forall2 (parses rt) pending (fst (iterate rt self pending exceptions)) /\
    exists built,
      Forall2 synthesizes
        (filter failed (fst (iterate rt self pending exceptions))) built /\
      members = (exceptions ++ built)%list.
Proof.
  induction pending as [|item pending IH]; intros exceptions message members.
  - simpl. destruct (_raise self), exceptions as [|x l]; simpl; try discriminate.
    intros H. inversion H; subst.
    repeat apply conj; try reflexivity; try constructor; try discriminate.
    exists []. rewrite app_nil_r. split; [constructor|reflexivity].
  - simpl. destruct (entry rt item exceptions) as [[response exceptions']|e] eqn:E.
    + specialize (IH exceptions' message members).
      destruct (iterate rt self pending exceptions') as [rs e'].
      simpl in *. intros H.
      destruct (IH H) as [Hm [Hr [Hn [Hf [built [Hb He]]]]]].
      destruct (entry_inv _ _ _ _ _ E) as [P [first [Hfirst ->]]].
      repeat apply conj; try assumption.
      * constructor; assumption.
      * exists (first ++ built)%list. split.
        -- simpl in Hfirst. destruct (failed response).
           ++ inversion Hfirst as [|r exc l l' S F']; subst.
              inversion F'; subst. simpl. constructor; assumption.
           ++ inversion Hfirst; subst. exact Hb.
        -- rewrite He, app_assoc. reflexivity.
    + simpl. intros ->.
      exfalso.
      apply (proj1 (entry_error_plain _ (entry_raises _ _ _ _ E)) message members).
      reflexivity.
Qed.

(** X19. An [ExceptionGroup] ends an iteration only when the client was
    made with [raise_exceptions], every entry of the reply parsed and was
    delivered, and some response failed; its message is
    [JolokiaException] and its members are the exceptions synthesized from
    the failed responses delivered, in their order. *)
Theorem group_only_after_all_responses
  (rt : Runtime) (net : network) (self : JolokiaClient.t)
  (operations : list JolokiaRequest.t)
  (responses : list JolokiaResponse.t)
  (message : string) (members : list exception) :
  drains rt net self (request operations) responses
    (ExceptionGroup message members) ->
  message = "JolokiaException" /\
  _raise self = true /\
  Forall2 synthesizes (filter failed responses) members /\
  members <> [] /\
  exists json_obj,
    fetch_json net self operations = Return json_obj /\
    Forall2 (parses rt) (as_sequence json_obj) responses.
Proof.
  intros D. apply drains_iff_consume in D. simpl in D.
  destruct (fetch_json net self operations) as [json_obj|e] eqn:F.
  - pose proof (iterate_group_inv rt self (as_sequence json_obj) [] message members)
      as H.
    rewrite D in H. simpl in H.
    destruct (H eq_refl) as [Hm [Hr [Hn [Hf [built [Hb He]]]]]]. subst members.
    repeat apply conj; try assumption.
    exists json_obj. split; [reflexivity|exact Hf].
  - inversion D; subst.
    destruct (fetch_json_raises _ _ _ _ F) as [?|[?|[? ?]]]; discriminate.
Qed.

Lemma group_only_after_all_responses_witness :
  Forall2 synthesizes (filter failed [Samples.not_found; Samples.heap])
    [Samples.not_found_exception].
Proof.
  refine (proj1 (proj2 (proj2 (group_only_after_all_responses Samples.runtime
            (Samples.reply (JArray [Samples.not_found_reply; Samples.heap_reply]))
            (Samples.client true) [version_request; Samples.read_request]
            [Samples.not_found; Samples.heap] "JolokiaException"
            [Samples.not_found_exception] _)))).
  apply drains_iff_consume. reflexivity.
Defined.

(** ** [version] on replies of every shape *)

(** X23. [version] posts the one operation [{"type": "version"}] and
    looks at the first response of the reply.  It returns a
    [JolokiaVersion] exactly when the status of that response is 200 and
    the value projects, and what it returns is the projection of the
    value; for every other status it raises the exception synthesized from
    that response, when that exception is built, and ends in the error of
    the synthesis otherwise. *)
Theorem version_by_status
  (rt : Runtime) (net : network) (self : JolokiaClient.t)
  (response : JolokiaResponse.t) (g : generator) :
  anext rt net self (request [version_request]) = (Yield response, g) ->
  data [version_request]
  = Return (JArray [JObject [("type", JString "version")]]) /\
  (exists body entries,
      net (_base_url self) (_auth self)
        (JArray [JObject [("type", JString "version")]]) = Replied body /\
      as_sequence body = entries /\
      exists item, hd_error entries = Some item /\ parses rt item response) /\
  (forall v,
      version rt net self = Return v <->
      JolokiaResponse.status response = 200 /\
      call_kw (JolokiaVersion.init rt) (JolokiaResponse.value response)
      = Return v) /\
  (JolokiaResponse.status response = 200 ->
   version rt net self =
   call_kw (JolokiaVersion.init rt) (JolokiaResponse.value response)) /\
  (JolokiaResponse.status response <> 200 ->
   (forall exc,
       synthesizes response exc -> version rt net self = Raised (Thrown exc)) /\
   (forall e,
       _build_exception response = Raised e -> version rt net self = Raised e)).
Proof.
  intros A.
  assert (V : version rt net self =
              if JolokiaResponse.status response =? 200
              then call_kw (JolokiaVersion.init rt)
                     (JolokiaResponse.value response)
              else match _build_exception response with
                   | Return exc => Raised (Thrown exc)
                   | Raised e => Raised e
                   end).
  { unfold version. rewrite A. cbn [fst].
    destruct (JolokiaResponse.status response =? 200); [reflexivity|].
    destruct (_build_exception response); reflexivity. }
  split; [reflexivity|]. split; [|split; [|split]].
  - revert A. simpl. unfold fetch_json.
    change (data [version_request])
      with (@Return json (JArray [JObject [("type", JString "version")]])).
    cbn [bind].
    destruct (net (_base_url self) (_auth self)
                (JArray [JObject [("type", JString "version")]])) as [body|why];
      [|discriminate].
    intros A. exists body, (as_sequence body). split; [reflexivity|].
    split; [reflexivity|].
    destruct (as_sequence body) as [|item pending].
    + rewrite resume_nil in A. discriminate.
    + exists item. split; [reflexivity|]. simpl in A.
      destruct (entry rt item []) as [[r excs]|e] eqn:E; inversion A; subst.
      apply (entry_inv _ _ _ _ _ E).
  - intros v. rewrite V.
    destruct (JolokiaResponse.status response =? 200) eqn:S.
    + apply Z.eqb_eq in S. tauto.
    + apply Z.eqb_neq in S. split; [|tauto].
      destruct (_build_exception response); discriminate.
  - intros S. rewrite V. apply Z.eqb_eq in S. rewrite S. reflexivity.
  - intros S. rewrite V. apply Z.eqb_neq in S. rewrite S. split.
    + intros exc Hx. unfold synthesizes in Hx. rewrite Hx. reflexivity.
    + intros e Hx. rewrite Hx. reflexivity.
Qed.

(** On the two sample replies: the version reply gives a [JolokiaVersion]
    whose protocol is 7.2; the 404 reply raises
    [IllegalArgumentException("no such endpoint")]. *)
Lemma version_by_status_witness :
  (exists v,
      version Samples.runtime (Samples.reply Samples.version_reply)
        (Samples.client false)
      = Return v /\ JolokiaVersion.protocol v = "7.2") /\
  (exists exc,
      version Samples.runtime (Samples.reply Samples.not_found_reply)
        (Samples.client false)
      = Raised (Thrown exc) /\
      class_name (exc_class exc) = "IllegalArgumentException" /\
      exc_args exc = ["no such endpoint"] /\
      isinstance exc JavaException = true).
Proof.
  split.
  - eexists. split.
    + refine (proj2 (proj1 (proj2 (proj2 (version_by_status Samples.runtime
               (Samples.reply Samples.version_reply) (Samples.client false)
               (Samples.response 200 Samples.version_value None None)
               (Suspended [] []) _))) _) _).
      * reflexivity.
      * split; reflexivity.
    + reflexivity.
  - exists Samples.not_found_exception. split.
    + refine (proj1 (proj2 (proj2 (proj2 (proj2 (version_by_status
               Samples.runtime
               (Samples.reply Samples.not_found_reply) (Samples.client false)
               Samples.not_found
               (Suspended [] [Samples.not_found_exception]) _)))) _)
               Samples.not_found_exception _).
      * reflexivity.
      * simpl. discriminate.
      * reflexivity.
    + repeat split.
Defined.

(** X9. [version] looks at the first entry of the reply and at nothing
    else: what it gives on a reply is what it gives on the array of the
    first entry alone, so that entries after the first, malformed or
    failed, go unnoticed.  On a reply without entries it ends in
    [StopAsyncIteration]. *)
Theorem version_takes_first_entry
  (rt : Runtime) (net : network) (self : JolokiaClient.t) (json_obj : json) :
  fetch_json net self [version_request] = Return json_obj ->
  (as_sequence json_obj = [] ->
   version rt net self = Raised StopAsyncIteration) /\
  (forall item rest,
      as_sequence json_obj = item :: rest ->
      version rt net self =
      version rt (fun _ _ _ => Replied (JArray [item])) self).
Proof.
  intros Hfetch. rewrite !version_unfold, Hfetch. split.
  - intros ->. reflexivity.
  - intros item rest ->. rewrite version_unfold. reflexivity.
Qed.

Lemma version_takes_first_entry_witness :
  version Samples.runtime
    (Samples.reply (JArray [Samples.version_reply; JObject []; JNull]))
    (Samples.client true) =
  version Samples.runtime
    (fun _ _ _ => Replied (JArray [Samples.version_reply]))
    (Samples.client true).
Proof.
  refine (proj2 (version_takes_first_entry Samples.runtime
                   (Samples.reply (JArray [Samples.version_reply; JObject []; JNull]))
                   (Samples.client true)
                   (JArray [Samples.version_reply; JObject []; JNull]) _)
            Samples.version_reply [JObject []; JNull] _).
  - reflexivity.
  - reflexivity.
Defined.

(** X10. An exception [version] raises out of a response is always an
    instance of [JavaException] and never the [RuntimeError] of its last
    line, which cannot be reached; a status of 200 with a value that is
    no object ends in a [TypeError]. *)
Theorem version_failures
  (rt : Runtime) (net : network) (self : JolokiaClient.t) :
  (forall exc,
      version rt net self = Raised (Thrown exc) ->
      isinstance exc JavaException = true /\
      isinstance exc RuntimeError_ = false) /\
  (forall response g,
      anext rt net self (request [version_request]) = (Yield response, g) ->
      JolokiaResponse.status response = 200 ->
      (forall kw, JolokiaResponse.value response <> JObject kw) ->
      version rt net self = Raised TypeError).
Proof.
  split.
  - intros exc. rewrite version_unfold.
    destruct (fetch_json net self [version_request]) as [json_obj|e] eqn:F.
    + destruct (as_sequence json_obj) as [|item pending]; [discriminate|].
      destruct (call_kw (JolokiaResponse.init rt) item) as [response|e] eqn:P.
      * destruct (JolokiaResponse.status response =? 200).
        -- intros H.
           destruct (call_kw_raises _ _ _ (version_init_raises rt) H)
             as [?|[? ?]]; discriminate.
        -- destruct (_build_exception response) as [exc'|e] eqn:B.
           ++ intros H. inversion H; subst.
              destruct (build_exception_instance _ _ B) as [H1 [_ H3]].
              split; assumption.
           ++ apply build_exception_raises in B. subst. discriminate.
      * intros H. inversion H; subst.
        destruct item; simpl in P; try discriminate.
        destruct (bindable members); [|discriminate].
        apply response_init_raises in P.
        destruct P as [[? ?]|[?|?]]; discriminate.
    + intros H. inversion H; subst.
      destruct (fetch_json_raises _ _ _ _ F) as [?|[?|[? ?]]]; discriminate.
  - intros response g A S Hv. unfold version. rewrite A. cbn [fst].
    rewrite S. simpl. destruct (JolokiaResponse.value response); try reflexivity.
    exfalso. eapply Hv. reflexivity.
Qed.

Lemma version_failures_witness :
  version Samples.runtime (Samples.reply (JObject [("status", JInt 200)]))
    (Samples.client false)
  = Raised TypeError.
Proof.
  refine (proj2 (version_failures Samples.runtime
                   (Samples.reply (JObject [("status", JInt 200)]))
                   (Samples.client false))
            (Samples.response 200 JNull None None) (Suspended [] []) _ _ _).
  - reflexivity.
  - reflexivity.
  - discriminate.
Defined.

(** ** The shape of a synthesized exception *)

(** X11. The class of a synthesized exception has a name without a dot,
    without a NUL character and without a lone surrogate; the exception
    has no argument or one argument, which is not empty, and no note or
    one note, which is the stack trace and not empty.  The synthesis
    fails exactly when the text after the last dot of [error_type] is no
    name for a class, and then with a [ValueError]. *)
Theorem build_exception_shape (response : JolokiaResponse.t) :
  (forall exc,
      _build_exception response = Return exc ->
      Str.occurs "." (class_name (exc_class exc)) = false /\
      Str.unnameable (class_name (exc_class exc)) = false /\
      (exc_args exc = [] \/
       exists message,
         exc_args exc = [message] /\ Str.truthy message = true) /\
      (exc_notes exc = [] \/
       exists stacktrace,
         JolokiaResponse.stacktrace response = Some stacktrace /\
         exc_notes exc = [stacktrace] /\
         Str.truthy stacktrace = true)) /\
  ((exists exc, _build_exception response = Return exc) <->
   Str.unnameable (synthesized_name response) = false) /\
  (forall e, _build_exception response = Raised e -> e = ValueError).
Proof.
  pose proof (build_exception_characterised response) as Hc.
  split; [|split].
  - intros exc Hx. rewrite Hx in Hc.
    destruct (Str.unnameable (synthesized_name response)) eqn:U;
      [discriminate|].
    inversion Hc; subst; clear Hc. cbn [exc_class exc_args exc_notes class_name].
    split; [|split; [exact U|split]].
    + unfold synthesized_name.
      destruct (JolokiaResponse.error_type response) as [et|]; [|reflexivity].
      destruct (Str.truthy et); [apply occurs_after_last|reflexivity].
    + destruct (JolokiaResponse.error response) as [er|]; [|left; reflexivity].
      destruct (partition ": " er) as [[before after]|]; [|left; reflexivity].
      destruct (Str.truthy after) eqn:T; [|left; reflexivity].
      right. exists after. split; [reflexivity|exact T].
    + destruct (JolokiaResponse.stacktrace response) as [st|];
        [|left; reflexivity].
      destruct (Str.truthy st) eqn:T; [|left; reflexivity].
      right. exists st. repeat split. exact T.
  - rewrite Hc. destruct (Str.unnameable (synthesized_name response)).
    + split; [intros [exc H]; discriminate|discriminate].
    + split; [reflexivity|]. intros _. eexists. reflexivity.
  - apply build_exception_raises.
Qed.

Lemma build_exception_shape_witness :
  exc_args Samples.not_found_exception = [] \/
  exists message,
    exc_args Samples.not_found_exception = [message] /\
    Str.truthy message = true.
Proof.
  refine (proj1 (proj2 (proj2 (proj1 (build_exception_shape Samples.not_found)
                                 Samples.not_found_exception _)))).
  reflexivity.
Defined.

(** ** Equality of requests *)

Lemma str_eq_eq a b : Equality.str_eq a b = true <-> a = b.
Proof.
  destruct a as [s|], b as [t|]; simpl; split; intros H;
    try discriminate; try reflexivity.
  - apply String.eqb_eq in H. subst. reflexivity.
  - inversion H. apply String.eqb_refl.
Qed.

Lemma operation_eq_eq a b : Equality.operation_eq a b = true <-> a = b.
Proof.
  destruct a, b; split; intros H; try discriminate; reflexivity.
Qed.

Lemma py_eq_null a b :
  Equality.py_eq a b = true -> (a = JNull <-> b = JNull).
Proof.
  destruct a, b; simpl; intros H; split; intros E;
    try discriminate; reflexivity.
Qed.

Lemma exclude_none_keys (l : list (string * option (result json))) d :
  JolokiaRequest.exclude_none l = Return d ->
  dict_keys d = map fst (filter JolokiaRequest.written l).
Proof.
  revert d. induction l as [|[k [[v|e]|]] l IH]; intros d;
    unfold JolokiaRequest.written; simpl.
  - intros H. inversion H. reflexivity.
  - destruct (JolokiaRequest.exclude_none l) as [d0|e]; simpl; [|discriminate].
    intros H. inversion H; subst. simpl. rewrite (IH d0 eq_refl). reflexivity.
  - discriminate.
  - apply IH.
Qed.

(** X14. Two requests that [__eq__] calls equal have the same operation
    and the same [mbean], [attribute], [path] and [operation_name]; they
    hold a [value], and [arguments], together or not at all, so that the
    same fields are written when both are serialized.
    Nothing that is not a request is equal to a request. *)
Theorem eq_requests_agree (self other : JolokiaRequest.t) :
  Equality.__eq__ self (Equality.IsRequest other) = true ->
  JolokiaRequest.type self = JolokiaRequest.type other /\
  JolokiaRequest.mbean self = JolokiaRequest.mbean other /\
  JolokiaRequest.attribute self = JolokiaRequest.attribute other /\
  JolokiaRequest.path self = JolokiaRequest.path other /\
  JolokiaRequest.operation_name self = JolokiaRequest.operation_name other /\
  Equality.py_eq (JolokiaRequest.value self) (JolokiaRequest.value other) = true /\
  Equality.arguments_eq (JolokiaRequest.arguments self)
    (JolokiaRequest.arguments other) = true /\
  map fst (filter JolokiaRequest.written
             (JolokiaRequest.fields self)) =
  map fst (filter JolokiaRequest.written
             (JolokiaRequest.fields other)) /\
  (forall d d',
      JolokiaRequest.exclude_none (JolokiaRequest.fields self) = Return d ->
      JolokiaRequest.exclude_none (JolokiaRequest.fields other) = Return d' ->
      dict_keys d = dict_keys d') /\
  (forall v, Equality.__eq__ self (Equality.NotRequest v) = false).
Proof.
  unfold Equality.__eq__.
  destruct (Equality.operation_eq _ _) eqn:Ht; [|discriminate].
  destruct (Equality.str_eq (JolokiaRequest.mbean self) _) eqn:Hm; [|discriminate].
  destruct (Equality.str_eq (JolokiaRequest.attribute self) _) eqn:Ha;
    [|discriminate].
  destruct (Equality.str_eq (JolokiaRequest.path self) _) eqn:Hp; [|discriminate].
  destruct (Equality.py_eq _ _) eqn:Hv; [|discriminate].
  destruct (Equality.str_eq (JolokiaRequest.operation_name self) _) eqn:Ho;
    [|discriminate].
  destruct (Equality.arguments_eq _ _) eqn:Hr; [|discriminate].
  intros _.
  apply operation_eq_eq in Ht. apply str_eq_eq in Hm, Ha, Hp, Ho.
  pose proof (py_eq_null _ _ Hv) as Hn.
  assert (Hsame :
    map fst (filter JolokiaRequest.written
               (JolokiaRequest.fields self)) =
    map fst (filter JolokiaRequest.written
               (JolokiaRequest.fields other))).
  { destruct self as [ty mb at_ pa va on ar],
             other as [ty' mb' at' pa' va' on' ar'].
    unfold JolokiaRequest.fields, JolokiaRequest.written.
    cbn [JolokiaRequest.type JolokiaRequest.mbean JolokiaRequest.attribute
         JolokiaRequest.path JolokiaRequest.value JolokiaRequest.operation_name
         JolokiaRequest.arguments] in *.
    subst.
    assert (Hnull : va = JNull \/ va <> JNull)
      by (destruct va; auto; right; discriminate).
    destruct Hnull as [->|Hne].
    - rewrite (proj1 Hn eq_refl).
      destruct mb', at', pa', on', ar as [l|], ar' as [l'|];
        try discriminate Hr; reflexivity.
    - assert (Hne' : va' <> JNull) by (intros E; apply Hne, Hn, E).
      assert (Hsome :
        forall v, v <> JNull ->
          exists y,
            match v with
            | JNull => None
            | JBool b => Some (JolokiaRequest.encoded (JBool b))
            | JInt n => Some (JolokiaRequest.encoded (JInt n))
            | JFloat f => Some (JolokiaRequest.encoded (JFloat f))
            | JString s => Some (JolokiaRequest.encoded (JString s))
            | JArray items => Some (JolokiaRequest.encoded (JArray items))
            | JObject members =>
                Some (JolokiaRequest.encoded (JObject members))
            end = Some y)
        by (intros []; intros Hv0; try contradiction; eauto).
      destruct (Hsome va Hne) as [y ->]. destruct (Hsome va' Hne') as [y' ->].
      destruct mb', at', pa', on', ar as [l|], ar' as [l'|];
        try discriminate Hr; reflexivity. }
  repeat apply conj; try assumption; try reflexivity.
  intros d d' Hd Hd'.
  rewrite (exclude_none_keys _ _ Hd), (exclude_none_keys _ _ Hd').
  exact Hsame.
Qed.

Lemma eq_requests_agree_witness :
  JolokiaRequest.type Samples.read_request = JolokiaRequest.type Samples.read_request.
Proof.
  refine (proj1 (eq_requests_agree Samples.read_request Samples.read_request _)).
  reflexivity.
Defined.

(** ** Serialization of requests *)

(** A request that can be serialized is serialized field by field. *)
Lemma request_json_fields (r : JolokiaRequest.t) :
  JolokiaRequest.serializable r = true ->
  exists o : dict,
    JolokiaRequest.exclude_none (JolokiaRequest.fields r) = Return o /\
    dict_get "type" o = Some (JString (Operation_value (JolokiaRequest.type r))) /\
    dict_get "mbean" o = option_map JString (JolokiaRequest.mbean r) /\
    dict_get "attribute" o = option_map JString (JolokiaRequest.attribute r) /\
    dict_get "path" o = option_map JString (JolokiaRequest.path r) /\
    dict_get "value" o =
      match JolokiaRequest.value r with
      | JNull => None
      | v => Some v
      end /\
    dict_get "operation_name" o =
      option_map JString (JolokiaRequest.operation_name r) /\
    dict_get "arguments" o = None /\
    dict_get "operation" o = None /\
    incl (dict_keys o) JolokiaRequest.compared /\
    NoDup (dict_keys o) /\
    (forall name, dict_get name o <> Some JNull) /\
    (JolokiaRequest.value r = JInt 0 -> In ("value", JInt 0) o).
Proof.
  destruct r as [ty mb at_ pa va on ar].
  unfold JolokiaRequest.serializable.
  cbn [JolokiaRequest.arguments JolokiaRequest.value]. intros Hs.
  apply andb_prop in Hs. destruct Hs as [Hv Ha].
  destruct ar as [l|]; [discriminate|]. clear Ha.
  unfold JolokiaRequest.fields, JolokiaRequest.compared.
  cbn [JolokiaRequest.type JolokiaRequest.mbean JolokiaRequest.attribute
       JolokiaRequest.path JolokiaRequest.value JolokiaRequest.operation_name
       JolokiaRequest.arguments].
  assert (He : match va with
               | JNull => None
               | JBool b => Some (JolokiaRequest.encoded (JBool b))
               | JInt n => Some (JolokiaRequest.encoded (JInt n))
               | JFloat f => Some (JolokiaRequest.encoded (JFloat f))
               | JString s => Some (JolokiaRequest.encoded (JString s))
               | JArray items => Some (JolokiaRequest.encoded (JArray items))
               | JObject members =>
                   Some (JolokiaRequest.encoded (JObject members))
               end =
               match va with
               | JNull => None
               | v => Some (Return v)
               end).
  { unfold JolokiaRequest.encoded.
    destruct va; try reflexivity; rewrite Hv; reflexivity. }
  rewrite He. clear He Hv.
  destruct mb, at_, pa, on, va; (eexists; split; [reflexivity|]);
    repeat apply conj; try reflexivity.
  all: lazymatch goal with
       | |- incl _ _ =>
           intros x Hx; simpl in Hx;
           repeat (destruct Hx as [<-|Hx]; [simpl; auto 10|]); destruct Hx
       | |- NoDup _ =>
           simpl;
           repeat (constructor; [simpl; intuition discriminate|]); constructor
       | |- forall name, dict_get name _ <> _ =>
           intros name; cbn [dict_get];
           repeat match goal with
                  | |- context [String.eqb ?k name] =>
                      destruct (String.eqb k name)
                  end;
           discriminate
       | |- _ -> In _ _ =>
           intros H; inversion H; subst; simpl; intuition
       end.
Qed.

Lemma request_json_serializable (r : JolokiaRequest.t) :
  JolokiaRequest.serializable r = false ->
  JolokiaRequest.json_exclude_none r =
  Raised (if Builtins.encodable (JolokiaRequest.value r)
          then TypeError else ValueError).
Proof.
  destruct r as [ty mb at_ pa va on ar].
  unfold JolokiaRequest.serializable, JolokiaRequest.json_exclude_none,
    JolokiaRequest.fields.
  cbn [JolokiaRequest.type JolokiaRequest.mbean JolokiaRequest.attribute
       JolokiaRequest.path JolokiaRequest.value JolokiaRequest.operation_name
       JolokiaRequest.arguments].
  unfold JolokiaRequest.encoded.
  destruct (Builtins.encodable va) eqn:Hv; cbn [andb].
  - destruct ar as [l|]; [|discriminate]. intros _.
    destruct va; try rewrite Hv; destruct mb, at_, pa, on; reflexivity.
  - intros _.
    destruct va; try discriminate Hv; rewrite Hv;
      destruct mb, at_, pa, on; reflexivity.
Qed.

(** X24. The object a request serializes to, when its [value] can be
    written and it holds no [arguments], holds a field exactly when the
    request holds a value other than [None] for it, and then with that
    value: [type] is always there, a field that holds [None] is left out,
    and no field is written as [null].  A value that is falsy but not
    [None] is written: with [value=0] the object holds ["value": 0].  A
    request whose [value] holds an [int] beyond the limit of digits is not
    serialized, the call ends in a [ValueError]; a request that holds
    [arguments] is not serialized either, the call ends in a
    [TypeError]. *)
Theorem json_excludes_exactly_none (r : JolokiaRequest.t) :
  (JolokiaRequest.serializable r = true ->
   exists o : dict,
     JolokiaRequest.json_exclude_none r = Return (JObject o) /\
     dict_get "type" o
     = Some (JString (Operation_value (JolokiaRequest.type r))) /\
     dict_get "mbean" o = option_map JString (JolokiaRequest.mbean r) /\
     dict_get "attribute" o = option_map JString (JolokiaRequest.attribute r) /\
     dict_get "path" o = option_map JString (JolokiaRequest.path r) /\
     dict_get "value" o =
       match JolokiaRequest.value r with
       | JNull => None
       | v => Some v
       end /\
     dict_get "operation_name" o =
       option_map JString (JolokiaRequest.operation_name r) /\
     dict_get "arguments" o = None /\
     incl (dict_keys o) JolokiaRequest.compared /\
     NoDup (dict_keys o) /\
     (forall name, dict_get name o <> Some JNull) /\
     (JolokiaRequest.value r = JInt 0 -> In ("value", JInt 0) o)) /\
  (Builtins.encodable (JolokiaRequest.value r) = false ->
   JolokiaRequest.json_exclude_none r = Raised ValueError) /\
  (Builtins.encodable (JolokiaRequest.value r) = true ->
   JolokiaRequest.arguments r <> None ->
   JolokiaRequest.json_exclude_none r = Raised TypeError).
Proof.
  split; [|split].
  - intros Ha. destruct (request_json_fields r Ha)
      as [o [Ho [H1 [H2 [H3 [H4 [H5 [H6 [H7 [_ [H8 [H9 [H10 H11]]]]]]]]]]]]].
    exists o. unfold JolokiaRequest.json_exclude_none. rewrite Ho.
    repeat apply conj; try assumption. reflexivity.
  - intros Hv. rewrite request_json_serializable.
    + rewrite Hv. reflexivity.
    + unfold JolokiaRequest.serializable. rewrite Hv. reflexivity.
  - intros Hv Ha. rewrite request_json_serializable.
    + rewrite Hv. reflexivity.
    + unfold JolokiaRequest.serializable. rewrite Hv.
      destruct (JolokiaRequest.arguments r); [reflexivity|contradiction].
Qed.

(** A WRITE request with [value=0] is serialized with its [value]. *)
Lemma json_excludes_exactly_none_witness :
  exists o : dict,
    JolokiaRequest.json_exclude_none Samples.write_request = Return (JObject o) /\
    In ("value", JInt 0) o /\
    dict_get "path" o = None.
Proof.
  destruct (proj1 (json_excludes_exactly_none Samples.write_request) eq_refl)
    as [o [Ho [_ [_ [_ [Hp [_ [_ [_ [_ [_ [_ Hv]]]]]]]]]]]].
  exists o. split; [exact Ho|]. split; [exact (Hv eq_refl)|exact Hp].
Defined.

Lemma serialized_all operations :
  Forall (fun r => JolokiaRequest.serializable r = true) operations ->
  exists items,
    serialized operations = Return items /\
    Forall2 (fun r o => JolokiaRequest.json_exclude_none r = Return o)
      operations items /\
    Forall (fun o => exists d, o = JObject d) items.
Proof.
  induction 1 as [|r rs Hr Hrs [items [Hs [Hf Ho]]]].
  - exists []. repeat split; constructor.
  - destruct (request_json_fields r Hr) as [o [Hx _]].
    assert (Hj : JolokiaRequest.json_exclude_none r = Return (JObject o))
      by (unfold JolokiaRequest.json_exclude_none; rewrite Hx; reflexivity).
    exists (JObject o :: items). simpl. rewrite Hj. simpl.
    rewrite Hs. simpl. split; [reflexivity|]. split.
    + constructor; [exact Hj|exact Hf].
    + constructor; [eauto|exact Ho].
Qed.

Lemma serialized_some operations :
  Exists (fun r => JolokiaRequest.serializable r = false) operations ->
  exists e,
    (e = TypeError \/ e = ValueError) /\ serialized operations = Raised e.
Proof.
  induction 1 as [r rs Hr|r rs Hrs [e [He IH]]]; simpl.
  - rewrite (request_json_serializable r Hr).
    eexists. split; [|reflexivity].
    destruct (Builtins.encodable (JolokiaRequest.value r)); auto.
  - destruct (JolokiaRequest.json_exclude_none r) as [o|e'] eqn:J; simpl.
    + rewrite IH. simpl. eauto.
    + exists e'. split; [|reflexivity].
      apply json_exclude_none_raises in J.
      destruct J as [[-> _]|[-> _]]; auto.
Qed.

(** X4. The body [fetch_json] posts holds one object a request, in the
    order of the operations, when every operation can be serialized: the
    empty sequence gives the empty array.  When some operation cannot,
    because it holds [arguments] or because its [value] cannot be written,
    nothing is posted: the body cannot be made, and [fetch_json] and the
    iteration over [request] end in the [TypeError] or the [ValueError]
    of the serialization, whatever the server would have replied. *)
Theorem data_one_object_per_operation (operations : list JolokiaRequest.t) :
  (Forall (fun r => JolokiaRequest.serializable r = true) operations ->
   exists items,
     data operations = Return (JArray items) /\
     List.length items = List.length operations /\
     Forall2 (fun r o => JolokiaRequest.json_exclude_none r = Return o)
       operations items /\
     Forall (fun o => exists d, o = JObject d) items /\
     forall net self,
       fetch_json net self operations =
       match net (_base_url self) (_auth self) (JArray items) with
       | Replied json_obj => Return json_obj
       | Failed why => Raised (TransportError why)
       end) /\
  (Exists (fun r => JolokiaRequest.serializable r = false) operations ->
   exists e,
     (e = TypeError \/ e = ValueError) /\
     data operations = Raised e /\
     forall net self,
       fetch_json net self operations = Raised e /\
       forall rt,
         consume rt net self (request operations) = ([], e)).
Proof.
  split.
  - intros Hall.
    destruct (serialized_all operations Hall) as [items [Hs [Hf Ho]]].
    assert (Hd : data operations = Return (JArray items))
      by (unfold data; rewrite Hs; reflexivity).
    exists items. repeat apply conj.
    + exact Hd.
    + symmetry. eapply Forall2_length. exact Hf.
    + exact Hf.
    + exact Ho.
    + intros net self. unfold fetch_json. rewrite Hd. reflexivity.
  - intros Hsome.
    destruct (serialized_some operations Hsome) as [e [He Hs]].
    assert (Hd : data operations = Raised e)
      by (unfold data; rewrite Hs; reflexivity).
    exists e. split; [exact He|]. split; [exact Hd|]. intros net self.
    assert (Hf : fetch_json net self operations = Raised e)
      by (unfold fetch_json; rewrite Hd; reflexivity).
    split; [exact Hf|]. intros rt. simpl. rewrite Hf. reflexivity.
Qed.

(** ** The command line *)

Lemma cli_dict_get key args :
  In key ["mbean"; "attribute"; "path"; "value"; "operation"; "arguments"] ->
  Main.get key (Main.__dict__ args) = Main.get key (Main.options args).
Proof.
  intros H. unfold Main.get, Main.__dict__.
  repeat (destruct H as [<-|H]; [reflexivity|]). destruct H.
Qed.

Lemma cli_kwargs args :
  Main.kwargs args =
  map (fun key => (key, Main.get key (Main.options args)))
      ["mbean"; "attribute"; "path"; "value"; "operation"; "arguments"].
Proof.
  unfold Main.kwargs. apply map_ext_in. intros key H.
  rewrite (cli_dict_get key args H). reflexivity.
Qed.

Lemma request_init_fields rt kw r :
  JolokiaRequest.init rt kw = Return r ->
  required enum_validator (dict_get "type" kw) = Some (JolokiaRequest.type r) /\
  optional (str_validator rt) (dict_get "mbean" kw)
    = Some (JolokiaRequest.mbean r) /\
  optional (str_validator rt) (dict_get "attribute" kw)
    = Some (JolokiaRequest.attribute r) /\
  optional (str_validator rt) (dict_get "path" kw)
    = Some (JolokiaRequest.path r) /\
  JolokiaRequest.value r = any (dict_get "value" kw) /\
  optional (str_validator rt) (dict_get "operation_name" kw)
    = Some (JolokiaRequest.operation_name r) /\
  optional iterable_validator (dict_get "arguments" kw)
    = Some (JolokiaRequest.arguments r).
Proof.
  unfold JolokiaRequest.init.
  destruct (required enum_validator (dict_get "type" kw));
    destruct (optional (str_validator rt) (dict_get "mbean" kw));
    destruct (optional (str_validator rt) (dict_get "attribute" kw));
    destruct (optional (str_validator rt) (dict_get "path" kw));
    destruct (optional (str_validator rt) (dict_get "operation_name" kw));
    destruct (optional iterable_validator (dict_get "arguments" kw));
    intros H; inversion H; subst; clear H; simpl; repeat split.
Qed.

(** X16. The request the command line builds has the operation named by
    the sub-command and the [value] given, but never an [operation_name]:
    the tool copies the attribute [operation], which no sub-parser sets and
    the model does not know, so that the name given with
    [--operation-name] is not sent in the body, which is made when the
    request can be serialized. *)
Theorem cli_request
  (rt : Runtime) (args : Main.Namespace) (r : JolokiaRequest.t) :
  Main.build_request rt args = Some (Return r) ->
  Operation_value (JolokiaRequest.type r) = Main.request args /\
  JolokiaRequest.value r = Main.get "value" (Main.options args) /\
  JolokiaRequest.operation_name r = None /\
  (forall body,
      data [r] = Return body ->
      exists o,
        body = JArray [JObject o] /\
        dict_get "operation_name" o = None /\
        dict_get "operation" o = None) /\
  (JolokiaRequest.serializable r = true ->
   exists o, data [r] = Return (JArray [JObject o])) /\
  (JolokiaRequest.serializable r = false ->
   exists e, data [r] = Raised e).
Proof.
  unfold Main.build_request.
  destruct (Operation_of_value (Main.request args)) as [op|] eqn:Eo;
    [|discriminate].
  rewrite cli_kwargs. intros H. inversion H as [Hi]. clear H.
  assert (Hop : Operation_value op = Main.request args).
  { unfold Operation_of_value in Eo. apply find_some in Eo.
    apply String.eqb_eq. apply Eo. }
  apply request_init_fields in Hi.
  destruct Hi as [Ht [_ [_ [_ [Hv [Ho _]]]]]].
  cbn [map] in Ht, Hv, Ho.
  change (dict_get "operation_name" _) with (@None json) in Ho.
  change (dict_get "value" _) with (Some (Main.get "value" (Main.options args)))
    in Hv.
  change (dict_get "type" _) with (Some (JString (Operation_value op))) in Ht.
  simpl in Ho, Hv. unfold required in Ht. rewrite enum_validator_value in Ht.
  inversion Ht as [Ht']. inversion Ho as [Ho'].
  assert (Hbody : JolokiaRequest.serializable r = true ->
                  exists o, data [r] = Return (JArray [JObject o]) /\
                            dict_get "operation_name" o = None /\
                            dict_get "operation" o = None).
  { intros Ha. destruct (request_json_fields r Ha)
      as [o [Hx [_ [_ [_ [_ [_ [H6 [_ [H8 _]]]]]]]]]].
    exists o. unfold data. simpl.
    unfold JolokiaRequest.json_exclude_none. rewrite Hx. simpl.
    rewrite H6, H8, <- Ho'. repeat split. }
  assert (Hnone : JolokiaRequest.serializable r = false ->
                  exists e, data [r] = Raised e).
  { intros Ha. unfold data. simpl.
    rewrite (request_json_serializable r Ha). eexists. reflexivity. }
  split; [rewrite <- Ht'; exact Hop|]. split; [exact Hv|].
  split; [reflexivity|]. split; [|split].
  - intros body Hd.
    destruct (JolokiaRequest.serializable r) eqn:Ea.
    + destruct (Hbody eq_refl) as [o [Hx [H1 H2]]].
      rewrite Hx in Hd. inversion Hd; subst. eauto.
    + destruct (Hnone eq_refl) as [e He]. rewrite He in Hd. discriminate.
  - intros Ha. destruct (Hbody Ha) as [o [Hx _]]. eauto.
  - exact Hnone.
Qed.

Lemma cli_request_witness :
  JolokiaRequest.operation_name
    {| JolokiaRequest.type := EXEC;
       JolokiaRequest.mbean := Some "java.lang:type=Memory";
       JolokiaRequest.attribute := None;
       JolokiaRequest.path := None;
       JolokiaRequest.value := JNull;
       JolokiaRequest.operation_name := None;
       JolokiaRequest.arguments := None |} = None.
Proof.
  refine (proj1 (proj2 (proj2 (cli_request Samples.runtime
            {| Main.base_url := "http://localhost:8080/jolokia";
               Main.username := None;
               Main.password := EmptyString;
               Main.request := "exec";
               Main.options := [("mbean", JString "java.lang:type=Memory");
                                ("operation_name", JString "gc");
                                ("arguments", JNull)] |} _ _)))).
  reflexivity.
Defined.

(** X17. [Operation(args.request)] fails exactly on a name that is not a
    registered sub-command: the commands of the parser and the members of
    [Operation] have the same names, so that no parsed command line ends in
    that [ValueError]. *)
Theorem cli_subcommands_are_operations :
  (forall rt args,
      Main.build_request rt args = None <->
      ~ In (Main.request args) Main.subcommands) /\
  (forall name,
      In name Main.subcommands <-> exists op, Operation_value op = name).
Proof.
  assert (S : forall name,
             In name Main.subcommands <-> exists op, Operation_value op = name).
  { intros name. split.
    - intros H. simpl in H.
      destruct H as [<-|[<-|[<-|[<-|[<-|[<-|[]]]]]]];
        [exists READ|exists WRITE|exists EXEC|exists SEARCH|exists LIST
        |exists VERSION]; reflexivity.
    - intros [op <-]. destruct op; simpl; auto 10. }
  split; [|exact S].
  intros rt args. unfold Main.build_request.
  destruct (Operation_of_value (Main.request args)) as [op|] eqn:E.
  - split; [discriminate|]. intros Hn. exfalso. apply Hn. apply S.
    exists op. unfold Operation_of_value in E. apply find_some in E.
    apply String.eqb_eq. apply E.
  - split; [|reflexivity]. intros _ Hin. apply S in Hin.
    destruct Hin as [op Hop]. rewrite <- Hop in E.
    destruct op; discriminate.
Qed.

(** X18. With a registered sub-command and the values [argparse] stores
    (a string or nothing for [mbean], [attribute], [path] and [value], a
    list of strings or nothing for [arguments]), the tool ends as
    follows.  A user name that holds a colon ends it in the [ValueError]
    of [BasicAuth], before any request is built.  Otherwise it builds its
    request.  Without [arguments] it posts the request alone, without
    authentication unless a user name was given, and hands the reply to
    [print] as it came: a reply with an error status is printed like any
    other, and a failure of the transport ends the tool in that failure.
    With [arguments] it posts nothing and ends in the [TypeError] of the
    serialization. *)
Theorem cli_prints_the_reply
  (rt : Runtime) (net : network) (args : Main.Namespace) :
  In (Main.request args) Main.subcommands ->
  (forall key, In key ["mbean"; "attribute"; "path"; "value"] ->
               Main.str_or_none (Main.get key (Main.options args)) = true) ->
  Main.argparse_value (Main.get "arguments" (Main.options args)) = true ->
  match Main.auth args with
  | Raised e =>
      e = ValueError /\
      Main._main rt net args = Main.Uncaught ValueError /\
      exists user,
        Main.username args = Some user /\ Str.occurs ":" user = true
  | Return auth =>
      (Main.username args = None -> auth = None) /\
      _raise (Main.client auth args) = false /\
      exists r,
        Main.build_request rt args = Some (Return r) /\
        (Main.get "arguments" (Main.options args) = JNull ->
         exists o,
           JolokiaRequest.json_exclude_none r = Return (JObject o) /\
           match net (Main.base_url args) auth (JArray [JObject o]) with
           | Replied body => Main._main rt net args = Main.Printed body
           | Failed why =>
               Main._main rt net args = Main.Uncaught (TransportError why)
           end) /\
        (Main.get "arguments" (Main.options args) <> JNull ->
         Main._main rt net args = Main.Uncaught TypeError)
  end.
Proof.
  intros Hsub Hstr Harg.
  assert (Hop : exists op, Operation_of_value (Main.request args) = Some op).
  { simpl in Hsub.
    destruct Hsub as [<-|[<-|[<-|[<-|[<-|[<-|[]]]]]]]; eexists; reflexivity. }
  destruct Hop as [op Hop].
  pose proof (Hstr "mbean" ltac:(simpl; auto)) as Hm.
  pose proof (Hstr "attribute" ltac:(simpl; auto)) as Ha.
  pose proof (Hstr "path" ltac:(simpl; auto)) as Hp.
  pose proof (Hstr "value" ltac:(simpl; auto)) as Hv.
  assert (Hb : exists r,
             Main.build_request rt args = Some (Return r) /\
             (Main.get "arguments" (Main.options args) = JNull ->
              JolokiaRequest.serializable r = true) /\
             (Main.get "arguments" (Main.options args) <> JNull ->
              JolokiaRequest.json_exclude_none r = Raised TypeError)).
  { unfold Main.build_request. rewrite Hop, cli_kwargs.
    unfold JolokiaRequest.init. cbn [map].
    change (dict_get "type" _) with (Some (JString (Operation_value op))).
    change (dict_get "mbean" _)
      with (Some (Main.get "mbean" (Main.options args))).
    change (dict_get "attribute" _)
      with (Some (Main.get "attribute" (Main.options args))).
    change (dict_get "path" _)
      with (Some (Main.get "path" (Main.options args))).
    change (dict_get "value" _)
      with (Some (Main.get "value" (Main.options args))).
    change (dict_get "operation_name" _) with (@None json).
    change (dict_get "arguments" _)
      with (Some (Main.get "arguments" (Main.options args))).
    unfold required. rewrite enum_validator_value.
    destruct (Main.get "mbean" (Main.options args)); try discriminate;
      destruct (Main.get "attribute" (Main.options args)); try discriminate;
      destruct (Main.get "path" (Main.options args)); try discriminate;
      destruct (Main.get "value" (Main.options args)); try discriminate;
      destruct (Main.get "arguments" (Main.options args)); try discriminate;
      eexists; (split; [reflexivity|]); split; intros H;
      try reflexivity; try discriminate H; contradiction. }
  destruct Hb as [r [Hb [Hnone Hsome]]].
  unfold Main._main. rewrite Hb.
  unfold Main.auth, Main.basic_auth.
  destruct (Main.username args) as [user|] eqn:Eu.
  - destruct (Str.truthy user).
    + destruct (Str.occurs ":" user) eqn:Ec; cbn [bind].
      * split; [reflexivity|]. split; [reflexivity|]. eauto.
      * split; [discriminate|]. split; [reflexivity|].
        exists r. split; [reflexivity|]. split.
        -- intros Hn. apply Hnone in Hn.
           destruct (request_json_fields r Hn) as [o [Ho _]].
           exists o. unfold JolokiaRequest.json_exclude_none.
           rewrite Ho. split; [reflexivity|].
           unfold fetch_json, data. simpl.
           unfold JolokiaRequest.json_exclude_none. rewrite Ho. simpl.
           destruct (net _ _ _); reflexivity.
        -- intros Hn.
           unfold fetch_json, data. simpl.
           rewrite (Hsome Hn). reflexivity.
    + split; [discriminate|]. split; [reflexivity|].
      exists r. split; [reflexivity|]. split.
      * intros Hn. apply Hnone in Hn.
        destruct (request_json_fields r Hn) as [o [Ho _]].
        exists o. unfold JolokiaRequest.json_exclude_none.
        rewrite Ho. split; [reflexivity|].
        unfold fetch_json, data. simpl.
        unfold JolokiaRequest.json_exclude_none. rewrite Ho. simpl.
        destruct (net _ _ _); reflexivity.
      * intros Hn.
        unfold fetch_json, data. simpl.
        rewrite (Hsome Hn). reflexivity.
  - split; [reflexivity|]. split; [reflexivity|].
    exists r. split; [reflexivity|]. split.
    + intros Hn. apply Hnone in Hn.
      destruct (request_json_fields r Hn) as [o [Ho _]].
      exists o. unfold JolokiaRequest.json_exclude_none.
      rewrite Ho. split; [reflexivity|].
      unfold fetch_json, data. simpl.
      unfold JolokiaRequest.json_exclude_none. rewrite Ho. simpl.
      destruct (net _ _ _); reflexivity.
    + intros Hn.
      unfold fetch_json, data. simpl.
      rewrite (Hsome Hn). reflexivity.
Qed.

(** An [exec] with one argument ends in the [TypeError], whatever the
    server would reply. *)
Lemma cli_prints_the_reply_witness :
  Main._main Samples.runtime (Samples.reply Samples.heap_reply)
    {| Main.base_url := "http://localhost:8080/jolokia";
       Main.username := None;
       Main.password := EmptyString;
       Main.request := "exec";
       Main.options := [("mbean", JString "java.lang:type=Memory");
                        ("operation_name", JString "gc");
                        ("arguments", JArray [JString "full"])] |}
  = Main.Uncaught TypeError.
Proof.
  pose proof (cli_prints_the_reply Samples.runtime
                (Samples.reply Samples.heap_reply)
                {| Main.base_url := "http://localhost:8080/jolokia";
                   Main.username := None;
                   Main.password := EmptyString;
                   Main.request := "exec";
                   Main.options := [("mbean", JString "java.lang:type=Memory");
                                    ("operation_name", JString "gc");
                                    ("arguments", JArray [JString "full"])] |})
    as H.
  cbn [Main.auth Main.username] in H.
  destruct H as [_ [_ [r [_ [_ H]]]]].
  - simpl. auto 10.
  - intros key Hk. simpl in Hk.
    destruct Hk as [<-|[<-|[<-|[<-|[]]]]]; reflexivity.
  - reflexivity.
  - apply H. discriminate.
Defined.

(** ** The conversion of [timestamp] *)

Lemma timestamp_in_report rt kw :
  timestamp_field rt (dict_get "timestamp" kw) = Rejected ->
  exists fields,
    JolokiaResponse.init rt kw = Raised (ValidationError fields) /\
    In "timestamp" fields.
Proof.
  intros T. unfold JolokiaResponse.init. rewrite T. cbn [reported].
  field_cases; eexists; (split; [reflexivity|]); simpl;
    repeat rewrite in_app_iff; simpl; auto 10.
Qed.

Lemma response_init_timestamp rt kw response :
  JolokiaResponse.init rt kw = Return response ->
  timestamp_field rt (dict_get "timestamp" kw)
  = Accepted (JolokiaResponse.timestamp response).
Proof.
  unfold JolokiaResponse.init.
  destruct (timestamp_field rt (dict_get "timestamp" kw)) as [ts| |e];
    cbn [reported]; [| |discriminate];
    field_cases; intros H; inversion H; reflexivity.
Qed.

(** X25. The [timestamp] of a response is the date [fromtimestamp] makes
    of the integer given, and there is none when the keyword is missing or
    [None].  A value that is no integer, and an integer with a year the
    calendar does not have, give the validation error, which names
    [timestamp].  An integer beyond the clock of the platform ends the
    call in the [OverflowError] or the [OSError] of [fromtimestamp]
    itself, whatever the other keywords hold; a call that ends in
    neither of these two ends in the validation error. *)
Theorem timestamp_conversion (rt : Runtime) (kw : dict) :
  (forall response,
      JolokiaResponse.init rt kw = Return response ->
      match dict_get "timestamp" kw with
      | None | Some JNull => JolokiaResponse.timestamp response = None
      | Some v =>
          exists t d,
            int_validator rt v = Some t /\
            fromtimestamp rt t = Converted d /\
            JolokiaResponse.timestamp response = Some d
      end) /\
  (forall v,
      dict_get "timestamp" kw = Some v ->
      v <> JNull ->
      int_validator rt v = None \/
      (exists t, int_validator rt v = Some t /\ fromtimestamp rt t = OutOfRange) ->
      exists fields,
        JolokiaResponse.init rt kw = Raised (ValidationError fields) /\
        In "timestamp" fields) /\
  (forall v t,
      dict_get "timestamp" kw = Some v ->
      int_validator rt v = Some t ->
      (fromtimestamp rt t = Overflow ->
       JolokiaResponse.init rt kw = Raised OverflowError) /\
      (fromtimestamp rt t = OsFailure ->
       JolokiaResponse.init rt kw = Raised OSError)) /\
  (forall e,
      JolokiaResponse.init rt kw = Raised e ->
      (exists fields, e = ValidationError fields) \/
      ((e = OverflowError \/ e = OSError) /\ timestamp_aborts rt kw)).
Proof.
  assert (Hv : forall v t, int_validator rt v = Some t -> v <> JNull)
    by (intros v t H ->; discriminate).
  repeat apply conj.
  - intros response Hr. apply response_init_timestamp in Hr.
    revert Hr. unfold timestamp_field, optional.
    destruct (dict_get "timestamp" kw) as [v|];
      [|cbn [_convert_timestamp]; intros H; inversion H; reflexivity].
    destruct v;
      try (cbn [_convert_timestamp]; intros H; inversion H; reflexivity);
      (destruct (int_validator rt _) as [t|] eqn:I;
       cbn [option_map _convert_timestamp]; [|discriminate];
       destruct (fromtimestamp rt t) as [d| | |] eqn:F; try discriminate;
       intros H; inversion H; eauto).
  - intros v Hk Hn Hbad. apply timestamp_in_report.
    unfold timestamp_field, optional. rewrite Hk.
    destruct Hbad as [Hnone|[t [Ht Ho]]].
    + destruct v; try contradiction; rewrite Hnone; reflexivity.
    + destruct v; try contradiction; rewrite Ht; cbn [option_map];
        unfold _convert_timestamp; rewrite Ho; reflexivity.
  - intros v t Hk Ht.
    assert (T : timestamp_field rt (dict_get "timestamp" kw) =
                _convert_timestamp rt (Some t)).
    { unfold timestamp_field, optional. rewrite Hk.
      pose proof (Hv v t Ht) as Hn.
      destruct v; try contradiction; rewrite Ht; reflexivity. }
    unfold JolokiaResponse.init. rewrite T. unfold _convert_timestamp.
    split; intros ->; reflexivity.
  - intros e H.
    destruct (response_init_raises _ _ _ H) as [Hf|He]; [left; exact Hf|].
    right. split; [exact He|]. unfold timestamp_aborts.
    revert H. unfold JolokiaResponse.init.
    destruct (timestamp_field rt (dict_get "timestamp" kw)) as [ts| |e'].
    + field_cases; intros H; inversion H; subst;
        destruct He as [He|He]; discriminate He.
    + field_cases; intros H; inversion H; subst;
        destruct He as [He|He]; discriminate He.
    + intros H. inversion H; subst. eauto.
Qed.
